(** * BluePeanits: the template manager (src/src/templateManager.js)

    A shallow embedding of [TemplateManager]: the JSON document of
    templates, the array of [Template] instances, the tile compositor
    [drawTemplateOnTile], the importer [importJSON] / [#parseBlueMarble]
    and the pixel-count reconstructor [#computePixelCountFromTiles].

    Modelling conventions.
    - A JS object used as a map (the [templates] map of the document, the
      [tiles] map of an entry, [Template.chunked]) is an association list
      kept in insertion order, which is the order of [Object.keys] and
      [for ... in] for the non-index string keys the program uses.
    - JS numbers that the code compares as integers are [Z]; a value that
      [Number] may turn into NaN is an [option Z] (None = NaN).  Where the
      code distinguishes NaN and the infinities ([isFinite]) the type [num]
      below is used.
    - Images are functions from pixel positions to RGBA values; the 2D
      canvas is a surface plus a clip rectangle.  The browser's
      source-over operator is a field of [browser], so theorems hold for
      every browser satisfying the compositing laws they assume.
    - Calls to [overlay.handleDisplayStatus] are appended to a status log
      of the manager; console output is not modelled. *)

From Stdlib Require Import ZArith List String Ascii Bool Lia.
From Stdlib Require Import Sorting.Sorted Sorting.Permutation.
Import ListNotations.
Open Scope Z_scope.

(* ------------------------------------------------------------------ *)
(** ** JS strings and numbers *)

Module Js.

(** Decimal digits of a non-negative integer, most significant first. *)
Fixpoint digits_of (fuel : nat) (n : Z) (acc : string) : string :=
  match fuel with
  | O => acc
  | S f =>
      let d := String (ascii_of_nat (48 + Z.to_nat (n mod 10))) acc in
      if n <? 10 then d else digits_of f (n / 10) d
  end.

(** [Number.prototype.toString] on an integer. *)
Definition Z_to_string (z : Z) : string :=
  let fuel := S (Z.to_nat (Z.log2_up (Z.abs z + 1))) in
  if z <? 0 then String "-" (digits_of fuel (- z) EmptyString)
  else digits_of fuel z EmptyString.

(** [s.padStart(n, '0')] *)
Fixpoint zeros (k : nat) : string :=
  match k with O => EmptyString | S k' => String "0" (zeros k') end.

Definition padStart0 (n : nat) (s : string) : string :=
  zeros (n - String.length s) ++ s.

(** [s.startsWith(p)] *)
Definition startsWith (s p : string) : bool := String.prefix p s.

(** [s.split(c)] for a one-character separator. *)
Fixpoint split_on (c : ascii) (s : string) : list string :=
  match s with
  | EmptyString => [EmptyString]
  | String x rest =>
      if Ascii.eqb x c then EmptyString :: split_on c rest
      else match split_on c rest with
           | w :: ws => String x w :: ws
           | [] => [String x EmptyString]
           end
  end.

Definition is_ws (c : ascii) : bool :=
  let n := nat_of_ascii c in ((9 <=? n)%nat && (n <=? 13)%nat) || (n =? 32)%nat.

(** [s.replace(/\s+/g, '')] (ASCII white space). *)
Fixpoint remove_ws (s : string) : string :=
  match s with
  | EmptyString => EmptyString
  | String c r => if is_ws c then remove_ws r else String c (remove_ws r)
  end.

(** [s.replace(' ', '')]: a string pattern replaces the first match only. *)
Fixpoint replace_first_space (s : string) : string :=
  match s with
  | EmptyString => EmptyString
  | String c r => if Ascii.eqb c " " then r else String c (replace_first_space r)
  end.

Fixpoint trim_left (s : string) : string :=
  match s with
  | String c r => if is_ws c then trim_left r else s
  | EmptyString => EmptyString
  end.

Definition trim (s : string) : string :=
  string_of_list_ascii (rev (list_ascii_of_string
    (trim_left (string_of_list_ascii (rev (list_ascii_of_string (trim_left s))))))).

Fixpoint parse_digits (s : string) (acc : Z) : option Z :=
  match s with
  | EmptyString => Some acc
  | String c r =>
      let n := Z.of_nat (nat_of_ascii c) in
      if (48 <=? n) && (n <=? 57) then parse_digits r (acc * 10 + (n - 48))
      else None
  end.

(** [Number(s)] on a string or on [undefined], for integer notations:
    white space is trimmed, an empty string is 0, an optional sign is
    followed by decimal digits; anything else is NaN (None). Fractional
    and exponent notations are outside the model. *)
Definition Number_str (s : option string) : option Z :=
  match s with
  | None => None
  | Some s0 =>
      match trim s0 with
      | EmptyString => Some 0
      | String "-" (String _ _ as r) => option_map Z.opp (parse_digits r 0)
      | String "+" (String _ _ as r) => parse_digits r 0
      | t => parse_digits t 0
      end
  end.

(** JS numbers where NaN and the infinities matter ([isNaN], [isFinite]). *)
Inductive num := Fin (z : Z) | NaN | PInf | NInf.

Definition isFiniteNum (n : num) : bool :=
  match n with Fin _ => true | _ => false end.

Definition num_to_string (n : num) : string :=
  match n with
  | Fin z => Z_to_string z
  | NaN => "NaN"
  | PInf => "Infinity"
  | NInf => "-Infinity"
  end.

(** [arr.join(sep)] *)
Fixpoint join (sep : string) (l : list string) : string :=
  match l with
  | [] => EmptyString
  | [x] => x
  | x :: r => x ++ sep ++ join sep r
  end.

(** JS objects used as maps: association lists in key insertion order. *)
Section Obj.
Context {V : Type}.

Fixpoint get (o : list (string * V)) (k : string) : option V :=
  match o with
  | [] => None
  | (k', v) :: r => if String.eqb k k' then Some v else get r k
  end.

(** [o[k] = v]: replaces in place, or appends a new key. *)
Fixpoint set (o : list (string * V)) (k : string) (v : V) : list (string * V) :=
  match o with
  | [] => [(k, v)]
  | (k', v') :: r => if String.eqb k k' then (k', v) :: r else (k', v') :: set r k v
  end.

(** [delete o[k]] *)
Definition del (o : list (string * V)) (k : string) : list (string * V) :=
  filter (fun kv => negb (String.eqb k (fst kv))) o.

Definition keys (o : list (string * V)) : list string := map fst o.

End Obj.

End Js.

Import Js.

(* ------------------------------------------------------------------ *)
(** ** Images, blobs and the 2D canvas *)

Record rgba := { red : Z; green : Z; blue : Z; alpha : Z }.

Definition transparent : rgba := {| red := 0; green := 0; blue := 0; alpha := 0 |}.

(** A decoded image ([ImageBitmap] or the backing store of a canvas). *)
Record image := { iw : Z; ih : Z; pix : Z -> Z -> rgba }.

(** A [Blob] / [File]: an encoded image, or bytes that do not decode. *)
Inductive blob := PngBlob (i : image) | BadBlob.

(** The browser facilities the code relies on. [over src dst] is the
    canvas source-over operator; [hasOffscreenCanvas] is
    [typeof OffscreenCanvas !== 'undefined'] and [hasDocument] whether the
    global [document] exists. *)
Record browser := {
  over : rgba -> rgba -> rgba;
  hasOffscreenCanvas : bool;
  hasDocument : bool
}.

(** [createImageBitmap(blob)]: rejects (None) on undecodable bytes and on
    images with a zero dimension. *)
Definition createImageBitmap (b : blob) : option image :=
  match b with
  | PngBlob i => if (0 <? iw i) && (0 <? ih i) then Some i else None
  | BadBlob => None
  end.

Definition in_rect (x y rx ry rw rh : Z) : bool :=
  (rx <=? x) && (x <? rx + rw) && (ry <=? y) && (y <? ry + rh).

(** A 2D context: its canvas surface and its clip rectangle. *)
Record ctx := { surface : image; clip : Z * Z * Z * Z }.

(** [new OffscreenCanvas(w, h).getContext('2d')]: a transparent surface,
    no clip beyond the canvas itself. *)
Definition new_ctx (w h : Z) : ctx :=
  {| surface := {| iw := w; ih := h; pix := fun _ _ => transparent |};
     clip := (0, 0, w, h) |}.

(** [beginPath(); rect(x, y, w, h); clip()] *)
Definition clip_rect (c : ctx) (x y w h : Z) : ctx :=
  {| surface := surface c; clip := (x, y, w, h) |}.

Definition drawable (c : ctx) (x y : Z) : bool :=
  let '(cx, cy, cw, chh) := clip c in
  in_rect x y 0 0 (iw (surface c)) (ih (surface c)) && in_rect x y cx cy cw chh.

(** [clearRect(x, y, w, h)] *)
Definition clearRect (c : ctx) (rx ry rw rh : Z) : ctx :=
  let s := surface c in
  {| surface := {| iw := iw s; ih := ih s;
                   pix := fun x y =>
                     if drawable c x y && in_rect x y rx ry rw rh
                     then transparent else pix s x y |};
     clip := clip c |}.

(** Nearest-neighbour sampling (the code sets [imageSmoothingEnabled =
    false]): destination pixel [x] of a [dw]-wide destination box at [dx]
    reads source column [floor((x - dx + 1/2) * sw / dw)]. *)
Definition sample (x dx sw dw : Z) : Z := ((2 * (x - dx) + 1) * sw) / (2 * dw).

(** [drawImage(img, dx, dy, dw, dh)] *)
Definition drawImage5 (B : browser) (c : ctx) (img : image) (dx dy dw dh : Z) : ctx :=
  let s := surface c in
  {| surface := {| iw := iw s; ih := ih s;
                   pix := fun x y =>
                     if drawable c x y && in_rect x y dx dy dw dh
                     then over B (pix img (sample x dx (iw img) dw) (sample y dy (ih img) dh))
                                 (pix s x y)
                     else pix s x y |};
     clip := clip c |}.

(** [drawImage(img, dx, dy)] *)
Definition drawImage3 (B : browser) (c : ctx) (img : image) (dx dy : Z) : ctx :=
  drawImage5 B c img dx dy (iw img) (ih img).

(** [canvas.convertToBlob({ type: 'image/png' })] *)
Definition convertToBlob (c : ctx) : blob := PngBlob (surface c).

(** [getImageData(0, 0, w, h)]: rejects (None) when a dimension is zero;
    [data] is the RGBA array in row-major order, [undefined] (None) out
    of range. *)
Record imageData := { id_width : Z; id_height : Z; id_data : Z -> option Z }.

Definition channel (p : rgba) (k : Z) : Z :=
  if k =? 0 then red p else if k =? 1 then green p else if k =? 2 then blue p else alpha p.

Definition getImageData (c : ctx) (w h : Z) : option imageData :=
  if (w =? 0) || (h =? 0) then None
  else Some {| id_width := w; id_height := h;
               id_data := fun idx =>
                 if (0 <=? idx) && (idx <? w * h * 4)
                 then Some (channel (pix (surface c) ((idx / 4) mod w) ((idx / 4) / w)) (idx mod 4))
                 else None |}.

(* ------------------------------------------------------------------ *)
(** ** Data model: Template instances, the JSON document, the manager *)

(** A [Template] instance (the fields the manager reads and writes). *)
Record template := {
  displayName : string;
  sortID : Z;
  authorID : string;
  enabled : bool;
  coords : option (list num);           (* None: never set (imports) *)
  chunked : list (string * image);      (* fragment key -> bitmap *)
  pixelCount : Z
}.

(** The [pixelCount] member of a document entry as the importer tests it. *)
Inductive pc_field :=
  | PCAbsent            (* undefined *)
  | PCNum (n : Z)       (* a number *)
  | PCNaN               (* NaN: typeof 'number', fails >= 0 *)
  | PCOther.            (* a value of another type *)

(** One entry of [templatesJSON.templates]. A [tiles] value is the base64
    data string of a fragment, identified with the bytes it encodes. *)
Record entry := {
  e_name : option string;
  e_coords : option string;
  e_enabled : option bool;
  e_tiles : list (string * blob);
  e_pixelCount : pc_field
}.

(** The persisted document. [templates] is None when the member is missing. *)
Record doc := {
  whoami : option string;
  scriptVersion : option string;
  schemaVersion : option string;
  templates : option (list (string * entry))
}.

(** The messages passed to [overlay.handleDisplayStatus]; the pixel
    totals are carried as numbers (their locale formatting is not modelled). *)
Inductive status_msg :=
  | MsgCreating (c : list num)                 (* `Creating template at ...` *)
  | MsgCreated (c : list num) (pixels : Z)     (* `Template created at ...! Total pixels: ...` *)
  | MsgDisplaying (count : nat) (pixels : Z)   (* `Displaying n template(s).\nTotal pixels: ...` *)
  | MsgDisplayingNone (count : nat).           (* `Displaying ${templateCount} templates.` *)

Record manager := {
  name : string;
  version : string;
  userID : option Z;                 (* null until known *)
  encodingBase : string;
  tileSize : Z;
  drawMult : Z;
  templatesArray : list template;
  templatesJSON : option doc;
  templatesShouldBeDrawn : bool;
  status : list status_msg;          (* messages shown by the overlay *)
  persisted : option doc             (* last document written by #storeTemplates *)
}.

(** The outcome of an async method: resolves with a value or rejects. *)
Inductive result (A : Type) := Ok (a : A) | Throw (e : string).
Arguments Ok {A} a.
Arguments Throw {A} e.

Definition with_array (m : manager) (a : list template) : manager :=
  {| name := name m; version := version m; userID := userID m;
     encodingBase := encodingBase m; tileSize := tileSize m; drawMult := drawMult m;
     templatesArray := a; templatesJSON := templatesJSON m;
     templatesShouldBeDrawn := templatesShouldBeDrawn m; status := status m;
     persisted := persisted m |}.

Definition with_json (m : manager) (j : option doc) : manager :=
  {| name := name m; version := version m; userID := userID m;
     encodingBase := encodingBase m; tileSize := tileSize m; drawMult := drawMult m;
     templatesArray := templatesArray m; templatesJSON := j;
     templatesShouldBeDrawn := templatesShouldBeDrawn m; status := status m;
     persisted := persisted m |}.

(** [this.overlay.handleDisplayStatus(msg)] *)
Definition add_status (m : manager) (s : status_msg) : manager :=
  {| name := name m; version := version m; userID := userID m;
     encodingBase := encodingBase m; tileSize := tileSize m; drawMult := drawMult m;
     templatesArray := templatesArray m; templatesJSON := templatesJSON m;
     templatesShouldBeDrawn := templatesShouldBeDrawn m; status := status m ++ [s];
     persisted := persisted m |}.

(** [#storeTemplates()]: writes the document to the userscript store (the
    best-effort localStorage copy holds the same document). *)
Definition storeTemplates (m : manager) : manager :=
  {| name := name m; version := version m; userID := userID m;
     encodingBase := encodingBase m; tileSize := tileSize m; drawMult := drawMult m;
     templatesArray := templatesArray m; templatesJSON := templatesJSON m;
     templatesShouldBeDrawn := templatesShouldBeDrawn m; status := status m;
     persisted := templatesJSON m |}.

(** [setTemplatesShouldBeDrawn(value)] *)
Definition setTemplatesShouldBeDrawn (m : manager) (v : bool) : manager :=
  {| name := name m; version := version m; userID := userID m;
     encodingBase := encodingBase m; tileSize := tileSize m; drawMult := drawMult m;
     templatesArray := templatesArray m; templatesJSON := templatesJSON m;
     templatesShouldBeDrawn := v; status := status m; persisted := persisted m |}.

Definition with_templates (d : doc) (ts : list (string * entry)) : doc :=
  {| whoami := whoami d; scriptVersion := scriptVersion d;
     schemaVersion := schemaVersion d; templates := Some ts |}.

(** [new TemplateManager(name, version, overlay)] *)
Definition new_manager (n v : string) : manager :=
  {| name := n; version := v; userID := None;
     encodingBase := "!#$%&'()*+,-./0123456789:;<=>?@ABCDEFGHIJKLMNOPQRSTUVWXYZ[]^_`abcdefghijklmnopqrstuvwxyz{|}~"%string;
     tileSize := 1000; drawMult := 3;
     templatesArray := []; templatesJSON := None; templatesShouldBeDrawn := true;
     status := []; persisted := None |}.

(** [createJSON()] *)
Definition createJSON (m : manager) : doc :=
  {| whoami := Some (replace_first_space (name m)); scriptVersion := Some (version m);
     schemaVersion := Some "1.0.0"%string; templates := Some [] |}.

(** [if (!this.templatesJSON) {this.templatesJSON = await this.createJSON();}] *)
Definition ensureJSON (m : manager) : manager :=
  match templatesJSON m with
  | Some _ => m
  | None => with_json m (Some (createJSON m))
  end.

(** Modelled from the spec: [numberToEncoded] (src/utils.js is not under
    src/): positional notation in radix = alphabet length, most
    significant digit first, digit [k] written as the [k]-th character. *)
Fixpoint enc_aux (fuel : nat) (n radix : Z) (base acc : string) : string :=
  match fuel with
  | O => acc
  | S f =>
      let c := match String.get (Z.to_nat (n mod radix)) base with
               | Some c => c | None => "?"%char end in
      if n <? radix then String c acc else enc_aux f (n / radix) radix base (String c acc)
  end.

Definition numberToEncoded (n : Z) (base : string) : string :=
  enc_aux (S (Z.to_nat (Z.log2_up (n + 1)))) n (Z.of_nat (String.length base)) base EmptyString.

(** The composite key [`${sortID} ${authorID}`]. *)
Definition template_key (sid : Z) (aid : string) : string :=
  Z_to_string sid ++ " " ++ aid.

(** [t.sortID == Number(sortID) && t.authorID === authorID] for
    [const [sortID, authorID] = templateKey.split(' ')]. *)
Definition key_matches (key : string) (t : template) : bool :=
  let parts := split_on " " key in
  match Number_str (nth_error parts 0), nth_error parts 1 with
  | Some sid, Some aid => (sortID t =? sid) && String.eqb (authorID t) aid
  | _, _ => false
  end.

(* ------------------------------------------------------------------ *)
(** ** Mutating operations *)

(** Modelled from the spec: the Chunker [Template.createTemplateTiles]
    (src/Template.js is not under src/): the fragment bitmaps, their
    encoded buffers, and the template's total pixel count; None when the
    source image does not decode. *)
Record chunk_result := {
  ch_tiles : list (string * image);
  ch_buffers : list (string * blob);
  ch_pixelCount : Z
}.

(** [createTemplate(blob, name, coords)]; [chunk] is the outcome of
    chunking [blob].  The [Template] constructor (src/Template.js) is
    modelled from the spec: it stores the fields it is given, and a
    created template starts enabled, as its document entry does. *)
Definition createTemplate (m : manager) (nm : string) (cs : list num)
    (chunk : option chunk_result) : manager * result unit :=
  let m1 := add_status (ensureJSON m) (MsgCreating cs) in
  match templatesJSON m1 with
  | None => (m1, Throw "unreachable")
  | Some d =>
    match templates d with
    | None => (m1, Throw "TypeError: Object.keys(undefined)")
    | Some ts =>
      let sid := Z.of_nat (List.length (keys ts)) in
      let aid := numberToEncoded (match userID m1 with Some u => u | None => 0 end)
                                 (encodingBase m1) in
      match chunk with
      | None => (m1, Throw "DecodeError")
      | Some ch =>
        let t := {| displayName := nm; sortID := sid; authorID := aid; enabled := true;
                    coords := Some cs; chunked := ch_tiles ch;
                    pixelCount := ch_pixelCount ch |} in
        let e := {| e_name := Some nm; e_coords := Some (join ", " (map num_to_string cs));
                    e_enabled := Some true; e_tiles := ch_buffers ch;
                    e_pixelCount := PCNum (ch_pixelCount ch) |} in
        let m2 := with_json m1 (Some (with_templates d (set ts (template_key sid aid) e))) in
        let m3 := with_array m2 (templatesArray m2 ++ [t]) in
        let m4 := add_status m3 (MsgCreated cs (ch_pixelCount ch)) in
        (storeTemplates m4, Ok tt)
      end
    end
  end.

(** [deleteTemplate(templateKey)] *)
Definition deleteTemplate (m : manager) (key : string) : manager * result unit :=
  let m1 := ensureJSON m in
  match templatesJSON m1 with
  | None => (m1, Throw "unreachable")
  | Some d =>
    match templates d with
    | None => (m1, Throw "TypeError: templates is undefined")
    | Some ts =>
      let ts' := match get ts key with Some _ => del ts key | None => ts end in
      let m2 := with_json m1 (Some (with_templates d ts')) in
      let m3 := with_array m2 (filter (fun t => negb (key_matches key t)) (templatesArray m2)) in
      (storeTemplates m3, Ok tt)
    end
  end.

(** [templatesArray.find(p)] followed by a field write on the found instance. *)
Fixpoint update_first (p : template -> bool) (f : template -> template)
    (l : list template) : list template :=
  match l with
  | [] => []
  | t :: r => if p t then f t :: r else t :: update_first p f r
  end.

Definition set_coords (cs : list num) (t : template) : template :=
  {| displayName := displayName t; sortID := sortID t; authorID := authorID t;
     enabled := enabled t; coords := Some cs; chunked := chunked t;
     pixelCount := pixelCount t |}.

Definition entry_set_coords (s : string) (e : entry) : entry :=
  {| e_name := e_name e; e_coords := Some s; e_enabled := e_enabled e;
     e_tiles := e_tiles e; e_pixelCount := e_pixelCount e |}.

(** [updateTemplateCoordinates(templateKey, newCoords)]; [newCoords] is
    None when it is not an array. *)
Definition updateTemplateCoordinates (m : manager) (key : string)
    (newCoords : option (list num)) : manager * result string :=
  let m1 := ensureJSON m in
  match newCoords with
  | None => (m1, Throw "Coordinates must be an array of 4 numbers [tileX, tileY, pixelX, pixelY]")
  | Some cs =>
    if negb (List.length cs =? 4)%nat
    then (m1, Throw "Coordinates must be an array of 4 numbers [tileX, tileY, pixelX, pixelY]")
    else if negb (forallb isFiniteNum cs)
    then (m1, Throw "All coordinates must be valid numbers")
    else
      match templatesJSON m1 with
      | None => (m1, Throw "unreachable")
      | Some d =>
        match templates d with
        | None => (m1, Throw "TypeError: templates is undefined")
        | Some ts =>
          let joined := join ", " (map num_to_string cs) in
          let ts' := match get ts key with
                     | Some e => set ts key (entry_set_coords joined e)
                     | None => ts end in
          let m2 := with_json m1 (Some (with_templates d ts')) in
          let m3 := with_array m2 (update_first (key_matches key) (set_coords cs)
                                                (templatesArray m2)) in
          (storeTemplates m3, Ok ("Template coordinates updated to: " ++ joined)%string)
        end
      end
  end.

Definition set_enabled (b : bool) (t : template) : template :=
  {| displayName := displayName t; sortID := sortID t; authorID := authorID t;
     enabled := b; coords := coords t; chunked := chunked t;
     pixelCount := pixelCount t |}.

Definition entry_set_enabled (b : bool) (e : entry) : entry :=
  {| e_name := e_name e; e_coords := e_coords e; e_enabled := Some b;
     e_tiles := e_tiles e; e_pixelCount := e_pixelCount e |}.

(** [toggleTemplate(templateKey, enabled)] *)
Definition toggleTemplate (m : manager) (key : string) (en : bool) : manager * result unit :=
  let m1 := ensureJSON m in
  match templatesJSON m1 with
  | None => (m1, Throw "unreachable")
  | Some d =>
    match templates d with
    | None => (m1, Throw "TypeError: templates is undefined")
    | Some ts =>
      let ts' := match get ts key with
                 | Some e => set ts key (entry_set_enabled en e)
                 | None => ts end in
      let m2 := with_json m1 (Some (with_templates d ts')) in
      let m3 := with_array m2 (update_first (key_matches key) (set_enabled en)
                                            (templatesArray m2)) in
      (storeTemplates m3, Ok tt)
    end
  end.

Definition set_displayName (nm : string) (t : template) : template :=
  {| displayName := nm; sortID := sortID t; authorID := authorID t;
     enabled := enabled t; coords := coords t; chunked := chunked t;
     pixelCount := pixelCount t |}.

Definition entry_set_name (nm : string) (e : entry) : entry :=
  {| e_name := Some nm; e_coords := e_coords e; e_enabled := e_enabled e;
     e_tiles := e_tiles e; e_pixelCount := e_pixelCount e |}.

(** [updateTemplateName(templateKey, newName)] *)
Definition updateTemplateName (m : manager) (key : string) (nm : string) : manager * result unit :=
  let m1 := ensureJSON m in
  match templatesJSON m1 with
  | None => (m1, Throw "unreachable")
  | Some d =>
    match templates d with
    | None => (m1, Throw "TypeError: templates is undefined")
    | Some ts =>
      let ts' := match get ts key with
                 | Some e => set ts key (entry_set_name nm e)
                 | None => ts end in
      let m2 := with_json m1 (Some (with_templates d ts')) in
      let m3 := with_array m2 (update_first (key_matches key) (set_displayName nm)
                                            (templatesArray m2)) in
      (storeTemplates m3, Ok tt)
    end
  end.

(** One element of the array returned by [getAllTemplates].  The pixel
    count is [Some n] for a number; [None] stands for a stored
    [pixelCount] of another type, which the expression passes through
    when it is truthy. *)
Record row := {
  r_key : string;
  r_name : option string;
  r_coords : option string;
  r_enabled : option bool;
  r_pixelCount : option Z
}.

(** [this.templatesArray.find(t => `${t.sortID} ${t.authorID}` === key)
    ?.pixelCount || template.pixelCount || 0] *)
Definition row_pixelCount (arr : list template) (key : string) (pc : pc_field) : option Z :=
  let stored := match pc with
                | PCNum n => Some n          (* n, or 0 || 0 when n = 0 *)
                | PCAbsent | PCNaN => Some 0
                | PCOther => None
                end in
  match find (fun t => String.eqb (template_key (sortID t) (authorID t)) key) arr with
  | Some t => if pixelCount t =? 0 then stored else Some (pixelCount t)
  | None => stored
  end.

(** [getAllTemplates()] *)
Definition getAllTemplates (m : manager) : list row :=
  match templatesJSON m with
  | None => []
  | Some d =>
    match templates d with
    | None => []
    | Some ts =>
      map (fun kv => {| r_key := fst kv; r_name := e_name (snd kv);
                        r_coords := e_coords (snd kv); r_enabled := e_enabled (snd kv);
                        r_pixelCount := row_pixelCount (templatesArray m) (fst kv)
                                                       (e_pixelCount (snd kv)) |}) ts
    end
  end.

(** The loop [for (const template of templates) await
    this.toggleTemplate(template.key, enabled)]; a rejection stops it. *)
Fixpoint toggle_all (m : manager) (ks : list string) (en : bool) : manager * result unit :=
  match ks with
  | [] => (m, Ok tt)
  | k :: r =>
      match toggleTemplate m k en with
      | (m', Ok _) => toggle_all m' r en
      | (m', Throw e) => (m', Throw e)
      end
  end.

(** [setAllTemplatesEnabled(enabled)] *)
Definition setAllTemplatesEnabled (m : manager) (en : bool) : manager * result unit :=
  toggle_all m (map r_key (getAllTemplates m)) en.

(* ------------------------------------------------------------------ *)
(** ** The tile compositor [drawTemplateOnTile] *)

(** [array.sort((a, b) => a.sortID - b.sortID)]: [Array.prototype.sort]
    is stable (ES2019), so its result is the stable sort by [sortID],
    written here as an insertion sort. *)
Fixpoint insert_by_sortID (t : template) (l : list template) : list template :=
  match l with
  | [] => [t]
  | u :: r => if sortID t <=? sortID u then t :: u :: r else u :: insert_by_sortID t r
  end.

Fixpoint sort_by_sortID (l : list template) : list template :=
  match l with
  | [] => []
  | t :: r => insert_by_sortID t (sort_by_sortID r)
  end.

(** [padStart(4, '0')] formatting of the requested tile: ["0047,0593"]. *)
Definition tile_prefix (tx ty : Z) : string :=
  (padStart0 4 (Z_to_string tx) ++ "," ++ padStart0 4 (Z_to_string ty))%string.

(** An element of [templatesToDraw]. *)
Record fragment := {
  f_bitmap : image;
  f_tileCoords : option string * option string;
  f_pixelCoords : option string * option string
}.

Definition matching_tiles (pre : string) (t : template) : list (string * image) :=
  filter (fun kv => startsWith (fst kv) pre) (chunked t).

(** The [.map(template => ...)] callback: [matchingTileBlobs?.[0]], or
    null when no fragment key starts with the tile prefix. *)
Definition first_match (pre : string) (t : template) : option fragment :=
  match matching_tiles pre t with
  | [] => None
  | (k, bmp) :: _ =>
      let cs := split_on "," k in
      Some {| f_bitmap := bmp;
              f_tileCoords := (nth_error cs 0, nth_error cs 1);
              f_pixelCoords := (nth_error cs 2, nth_error cs 3) |}
  end.

Fixpoint filter_map {A B : Type} (f : A -> option B) (l : list A) : list B :=
  match l with
  | [] => []
  | x :: r => match f x with Some y => y :: filter_map f r | None => filter_map f r end
  end.

(** [templateArray.filter(enabled).map(first_match).filter(Boolean)] *)
Definition templatesToDraw (pre : string) (arr : list template) : list fragment :=
  filter_map (first_match pre) (filter enabled arr).

(** The [totalPixels] reduction. *)
Definition totalPixels (pre : string) (arr : list template) : Z :=
  fold_left (fun s t => s + pixelCount t)
    (filter (fun t => negb (List.length (matching_tiles pre t) =? 0)%nat && enabled t) arr) 0.

(** [context.drawImage(bitmap, Number(px) * drawMult, Number(py) * drawMult)];
    a NaN position makes [drawImage] draw nothing. *)
Definition drawFrag (B : browser) (mult : Z) (c : ctx) (f : fragment) : ctx :=
  match Number_str (fst (f_pixelCoords f)), Number_str (snd (f_pixelCoords f)) with
  | Some px, Some py => drawImage3 B c (f_bitmap f) (px * mult) (py * mult)
  | _, _ => c
  end.

(** The canvas work after the status message: base layer, then fragments. *)
Definition composite (B : browser) (drawSize mult : Z) (tileBitmap : image)
    (frags : list fragment) : ctx :=
  let c0 := new_ctx drawSize drawSize in
  let c1 := clip_rect c0 0 0 drawSize drawSize in
  let c2 := clearRect c1 0 0 drawSize drawSize in
  let c3 := drawImage5 B c2 tileBitmap 0 0 drawSize drawSize in
  fold_left (drawFrag B mult) frags c3.

(** [drawTemplateOnTile(tileBlob, tileCoords)].  [const templateArray =
    this.templatesArray] is the same array object, so the in-place sort
    writes the sorted order back into [templatesArray]. *)
Definition drawTemplateOnTile (B : browser) (m : manager) (tileBlob : blob)
    (tx ty : Z) : manager * result blob :=
  if negb (templatesShouldBeDrawn m) then (m, Ok tileBlob) else
  let drawSize := tileSize m * drawMult m in
  let pre := tile_prefix tx ty in
  let templateArray := sort_by_sortID (templatesArray m) in
  let m1 := with_array m templateArray in
  let toDraw := templatesToDraw pre templateArray in
  let templateCount := List.length toDraw in
  let m2 := if (0 <? templateCount)%nat
            then add_status m1 (MsgDisplaying templateCount (totalPixels pre templateArray))
            else add_status m1 (MsgDisplayingNone templateCount) in
  match createImageBitmap tileBlob with
  | None => (m2, Throw "InvalidStateError")
  | Some tileBitmap =>
      (m2, Ok (convertToBlob (composite B drawSize (drawMult m) tileBitmap toDraw)))
  end.

(* ------------------------------------------------------------------ *)
(** ** The pixel-count reconstructor [#computePixelCountFromTiles] *)

(** [for (let i = i0; i < bound; i += 3) acc = body(i, acc)], with fuel. *)
Fixpoint step3_loop (body : Z -> Z -> Z) (bound i : Z) (fuel : nat) (acc : Z) : Z :=
  match fuel with
  | O => acc
  | S f => if i <? bound then step3_loop body bound (i + 3) f (body i acc) else acc
  end.

(** The nested loops over one bitmap's [ImageData]: centre cells only,
    [if (data[idx + 3] > 0) total++]. *)
Definition count_centres (d : imageData) (total : Z) : Z :=
  let width := id_width d in
  let height := id_height d in
  step3_loop
    (fun y t =>
       step3_loop
         (fun x t' =>
            let idx := (y * width + x) * 4 in
            match id_data d (idx + 3) with
            | Some a => if 0 <? a then t' + 1 else t'
            | None => t'
            end)
         width 1 (Z.to_nat width) t)
    height 1 (Z.to_nat height) total.

(** One iteration of the [for (const key of Object.keys(tileBitmaps))]
    loop: resizing the canvas resets it, then [clearRect], [drawImage] at
    the origin and [getImageData] of the whole bitmap. *)
Fixpoint pc_loop (B : browser) (tiles : list (string * image)) (total : Z) : option Z :=
  match tiles with
  | [] => Some total
  | (_, bmp) :: r =>
      let c := drawImage3 B (clearRect (new_ctx (iw bmp) (ih bmp)) 0 0 (iw bmp) (ih bmp))
                          bmp 0 0 in
      match getImageData c (iw bmp) (ih bmp) with
      | None => None
      | Some d => pc_loop B r (count_centres d total)
      end
  end.

(** [#computePixelCountFromTiles(tileBitmaps)]; None when it throws (no
    canvas can be created, or [getImageData] rejects its size). *)
Definition computePixelCountFromTiles (B : browser) (tiles : list (string * image)) : option Z :=
  if hasOffscreenCanvas B || hasDocument B then pc_loop B tiles 0 else None.

(* ------------------------------------------------------------------ *)
(** ** Import: [importJSON] and [#parseBlueMarble] *)

Definition entry_set_pc (n : Z) (e : entry) : entry :=
  {| e_name := e_name e; e_coords := e_coords e; e_enabled := e_enabled e;
     e_tiles := e_tiles e; e_pixelCount := PCNum n |}.

(** The [for (const tile in tilesbase64)] loop: base64 -> bytes -> bitmap;
    a rejected [createImageBitmap] aborts the whole parse (None). *)
Fixpoint decode_tiles (tiles : list (string * blob)) (acc : list (string * image))
    : option (list (string * image)) :=
  match tiles with
  | [] => Some acc
  | (k, b) :: r =>
      match createImageBitmap b with
      | None => None
      | Some bmp => decode_tiles r (set acc k bmp)
      end
  end.

(** The pixel-count resolution of one template: the [Template]'s count and
    the entry after the write-back [templateValue.pixelCount = ...]. *)
Definition resolve_pixelCount (B : browser) (templateTiles : list (string * image))
    (v : entry) : Z * entry :=
  let recompute :=
    match computePixelCountFromTiles B templateTiles with
    | Some c => (c, entry_set_pc c v)
    | None =>
        let n := List.length (keys templateTiles) in
        let tileCount := if (n =? 0)%nat then 1 else Z.of_nat n in
        (tileCount * 500, entry_set_pc (tileCount * 500) v)
    end in
  match e_pixelCount v with
  | PCNum n => if 0 <=? n then (n, v) else recompute
  | _ => recompute
  end.

(** The body of [for (const template in templates)] for one key; [len] is
    [this.templatesArray.length] at that point.  None: a fragment failed
    to decode, which rejects the parse. *)
Definition parse_template (B : browser) (len : Z) (key : string) (v : entry)
    : option (template * entry) :=
  let parts := split_on " " key in
  let sid := Number_str (nth_error parts 0) in
  let aid := match nth_error parts 1 with
             | Some a => if String.eqb a "" then "0"%string else a
             | None => "0"%string end in
  let sid_str := match sid with
                 | Some z => if z =? 0 then EmptyString else Z_to_string z
                 | None => EmptyString end in
  let dn := match e_name v with
            | Some n => if String.eqb n "" then ("Template " ++ sid_str)%string else n
            | None => ("Template " ++ sid_str)%string end in
  let en := match e_enabled v with Some b => b | None => true end in
  match decode_tiles (e_tiles v) [] with
  | None => None
  | Some templateTiles =>
      let sid' := match sid with Some z => if z =? 0 then len else z | None => len end in
      let '(pc, v') := resolve_pixelCount B templateTiles v in
      Some ({| displayName := dn; sortID := sid'; authorID := aid; enabled := en;
               coords := None; chunked := templateTiles; pixelCount := pc |}, v')
  end.

(** The loop of [#parseBlueMarble] over the document's templates: the
    array after the pushes and the templates map after the write-backs.
    A rejection stops the loop where it happens. *)
Fixpoint parse_loop (B : browser) (arr : list template) (ts : list (string * entry))
    : list template * list (string * entry) :=
  match ts with
  | [] => (arr, [])
  | (k, v) :: r =>
      match parse_template B (Z.of_nat (List.length arr)) k v with
      | None => (arr, ts)
      | Some (t, v') =>
          let '(arr', r') := parse_loop B (arr ++ [t]) r in
          (arr', (k, v') :: r')
      end
  end.

(** [#parseBlueMarble(json)]: the manager with the pushed templates and
    the imported document with the write-backs.  A missing [templates]
    member makes [Object.keys] throw, which the caller catches. *)
Definition parseBlueMarble (B : browser) (m : manager) (d : doc) : manager * doc :=
  match templates d with
  | None => (m, d)
  | Some ts =>
      let '(arr', ts') := parse_loop B (templatesArray m) ts in
      (with_array m arr', with_templates d ts')
  end.

(** The merge loop [if (!this.templatesJSON.templates[key])
    this.templatesJSON.templates[key] = json.templates[key]]. *)
Fixpoint merge_absent (cur new : list (string * entry)) : list (string * entry) :=
  match new with
  | [] => cur
  | (k, v) :: r =>
      match get cur k with
      | Some _ => merge_absent cur r
      | None => merge_absent (set cur k v) r
      end
  end.

Definition set_whoami (d : doc) (w : string) : doc :=
  {| whoami := Some w; scriptVersion := scriptVersion d;
     schemaVersion := schemaVersion d; templates := templates d |}.

Definition whoami_falsy (d : doc) : bool :=
  match whoami d with None => true | Some w => String.eqb w "" end.

Definition accepted_whoami (m : manager) : list string :=
  ["BlueMarble"; "BluePeanits"; "BluePeanuts"; remove_ws (name m)]%string.

(** [importJSON(json)]; [json] is None for [null]/[undefined].

    Sharing: the adopted document ([this.templatesJSON = json]) and the
    merged entries ([templatesJSON.templates[key] = json.templates[key]])
    are the imported objects themselves, so the write-backs done by
    [#parseBlueMarble] afterwards show through them.  The model applies
    the adoption and the merge to the parsed document, which gives the
    same final state for an imported document that is a separate object
    from the current [templatesJSON]. *)
Definition importJSON (B : browser) (m : manager) (json : option doc) : manager * result unit :=
  match json with
  | None => (m, Ok tt)
  | Some d0 =>
    let currentName := remove_ws (name m) in
    let d := if whoami_falsy d0 && match templates d0 with Some _ => true | None => false end
             then set_whoami d0 currentName else d0 in
    let ok := match whoami d with
              | Some w => existsb (String.eqb w) (accepted_whoami m)
              | None => false end in
    if negb ok then (m, Ok tt)   (* console.warn: rejected *)
    else
      match templatesJSON m, templates d with
      | Some cur, Some ts =>
          match templates cur with
          | None => if (List.length ts =? 0)%nat then
                      let '(m1, _) := parseBlueMarble B m d in (m1, Ok tt)
                    else (m, Throw "TypeError: templates is undefined")
          | Some cts =>
              let '(m1, d') := parseBlueMarble B m d in
              let ts' := match templates d' with Some x => x | None => ts end in
              (with_json m1 (Some (with_templates cur (merge_absent cts ts'))), Ok tt)
          end
      | Some _, None =>
          let '(m1, _) := parseBlueMarble B m d in (m1, Ok tt)
      | None, _ =>
          let '(m1, d') := parseBlueMarble B m d in (with_json m1 (Some d'), Ok tt)
      end
  end.

(* ------------------------------------------------------------------ *)
(** ** Concrete instances used by the witnesses *)

(** Source-over on non-premultiplied 8-bit RGBA. *)
Definition std_over (s d : rgba) : rgba :=
  let ao := alpha s + alpha d * (255 - alpha s) / 255 in
  let mix (cs cd : Z) :=
    if ao =? 0 then cd else (cs * alpha s + cd * alpha d * (255 - alpha s) / 255) / ao in
  {| red := mix (red s) (red d); green := mix (green s) (green d);
     blue := mix (blue s) (blue d); alpha := ao |}.

Definition std_browser : browser :=
  {| over := std_over; hasOffscreenCanvas := true; hasDocument := true |}.

(** A browser page in which no canvas can be created. *)
Definition no_canvas_browser : browser :=
  {| over := std_over; hasOffscreenCanvas := false; hasDocument := false |}.

Definition solid (w h : Z) (p : rgba) : image := {| iw := w; ih := h; pix := fun _ _ => p |}.

Definition opaque_red : rgba := {| red := 255; green := 0; blue := 0; alpha := 255 |}.
Definition opaque_blue : rgba := {| red := 0; green := 0; blue := 255; alpha := 255 |}.

Definition m0 : manager := new_manager "Blue Peanits" "0.81.1".

Definition chunk1 : chunk_result :=
  {| ch_tiles := [("0000,0000,000,000"%string, solid 3 3 opaque_red)];
     ch_buffers := [("0000,0000,000,000"%string, PngBlob (solid 3 3 opaque_red))];
     ch_pixelCount := 1 |}.

Definition entry1 : entry :=
  {| e_name := Some "A"%string; e_coords := Some "0, 0, 0, 0"%string; e_enabled := Some true;
     e_tiles := [("0000,0000,000,000"%string, PngBlob (solid 3 3 opaque_red))];
     e_pixelCount := PCNum 1 |}.

Definition doc1 : doc :=
  {| whoami := Some "BlueMarble"%string; scriptVersion := Some "0.81.1"%string;
     schemaVersion := Some "1.0.0"%string; templates := Some [("0 $Z"%string, entry1)] |}.

(** Two enabled templates on tile (0, 0), in the array in descending
    [sortID] order. *)
Definition tmpl (sid : Z) (p : rgba) : template :=
  {| displayName := "T"%string; sortID := sid; authorID := "!"%string; enabled := true;
     coords := Some [Fin 0; Fin 0; Fin 0; Fin 0];
     chunked := [("0000,0000,000,000"%string, solid 3 3 p)]; pixelCount := 1 |}.

Definition m_two : manager := with_array m0 [tmpl 5 opaque_blue; tmpl 2 opaque_red].

Definition tile1000 : blob := PngBlob (solid 1000 1000 {| red := 10; green := 20; blue := 30; alpha := 255 |}).

Definition zero4 : list num := [Fin 0; Fin 0; Fin 0; Fin 0].

(** A document whose [whoami] is the empty string. *)
Definition doc_empty_whoami : doc :=
  {| whoami := Some ""%string; scriptVersion := None; schemaVersion := None;
     templates := Some [("0 $Z"%string, entry1)] |}.

(** The manager after creating one template, keyed ["0 !"]. *)
Definition m_one : manager := fst (createTemplate m0 "A" zero4 (Some chunk1)).

Definition coords_nan : option (list num) := Some [Fin 1; NaN; Fin 0; Fin 0].
Definition coords_far : option (list num) := Some [Fin 2048; Fin 0; Fin 0; Fin 0].

(** An imported entry with no fragment and no stored pixel count. *)
Definition entry_bare : entry :=
  {| e_name := None; e_coords := None; e_enabled := None; e_tiles := [];
     e_pixelCount := PCAbsent |}.

Definition tiles_7x5 : list (string * image) := [("0000,0000,000,000"%string, solid 7 5 opaque_red)].

(** A manager whose document has no [templates] member. *)
Definition m_no_map : manager :=
  with_json m0 (Some {| whoami := Some "BluePeanits"%string; scriptVersion := None;
                        schemaVersion := None; templates := None |}).

(** A manager whose script name has two spaces. *)
Definition m_spaces : manager := new_manager "Blue Marble Plus" "0.81.1".

(** An entry whose only fragment does not decode, and a document whose
    second entry is that one. *)
Definition entry_bad : entry :=
  {| e_name := Some "Bad"%string; e_coords := None; e_enabled := None;
     e_tiles := [("0000,0000,000,000"%string, BadBlob)]; e_pixelCount := PCNum 1 |}.

Definition doc_bad : doc :=
  {| whoami := Some "BlueMarble"%string; scriptVersion := None; schemaVersion := None;
     templates := Some [("0 $Z"%string, entry1); ("1 $Z"%string, entry_bad)] |}.

(* ------------------------------------------------------------------ *)
(** ** Specification helpers *)

(** The number of entries of the persisted templates map: 0 before the
    document exists, None when the document has no [templates] member. *)
Definition templates_count (m : manager) : option nat :=
  match templatesJSON m with
  | None => Some O
  | Some d => option_map (fun ts => List.length (keys ts)) (templates d)
  end.

(** A coordinate argument that passes the checks of
    [updateTemplateCoordinates]: an array of four finite numbers. *)
Definition coords_ok (cs : option (list num)) : bool :=
  match cs with
  | Some l => (List.length l =? 4)%nat && forallb isFiniteNum l
  | None => false
  end.

(** The templates map of the manager's document, if any. *)
Definition json_templates (m : manager) : option (list (string * entry)) :=
  match templatesJSON m with Some d => templates d | None => None end.

(** Sum of [f i] over [i] in [lo, lo + n). *)
Fixpoint sum_range (f : Z -> Z) (lo : Z) (n : nat) : Z :=
  match n with
  | O => 0
  | S k => f lo + sum_range f (lo + 1) k
  end.

(** The number of cells [(x, y)] of a bitmap, [0 <= x < width] and
    [0 <= y < height], with [x mod 3 = 1], [y mod 3 = 1] and alpha > 0. *)
Definition centre_cells (bmp : image) : Z :=
  sum_range (fun y =>
    sum_range (fun x =>
      if (x mod 3 =? 1) && (y mod 3 =? 1) && (0 <? alpha (pix bmp x y)) then 1 else 0)
      0 (Z.to_nat (iw bmp)))
    0 (Z.to_nat (ih bmp)).

(** Summed over all fragments of a template. *)
Definition centre_cells_total (tiles : list (string * image)) : Z :=
  fold_right (fun kv s => centre_cells (snd kv) + s) 0 tiles.

(** The canvas of one [pc_loop] iteration, after [drawImage(bmp, 0, 0)]. *)
Definition drawn_canvas (B : browser) (bmp : image) : ctx :=
  drawImage3 B (clearRect (new_ctx (iw bmp) (ih bmp)) 0 0 (iw bmp) (ih bmp)) bmp 0 0.

(** The pixel-count member is trusted by the importer. *)
Definition pc_trusted (v : entry) : bool :=
  match e_pixelCount v with PCNum n => 0 <=? n | _ => false end.

(** The enabled templates of [arr] that have a fragment on the tile,
    each paired with the fragment [drawTemplateOnTile] draws for it, in
    array order. *)
Definition draw_seq (pre : string) (arr : list template) : list (template * fragment) :=
  filter_map (fun t => option_map (pair t) (first_match pre t)) (filter enabled arr).

(** The source pixel that [drawFrag] composites at canvas position
    [(x, y)], when the fragment's bitmap covers that position. *)
Definition frag_pixel (mult : Z) (f : fragment) (x y : Z) : option rgba :=
  match Number_str (fst (f_pixelCoords f)), Number_str (snd (f_pixelCoords f)) with
  | Some px, Some py =>
      let bmp := f_bitmap f in
      if in_rect x y (px * mult) (py * mult) (iw bmp) (ih bmp)
      then Some (pix bmp (sample x (px * mult) (iw bmp) (iw bmp))
                         (sample y (py * mult) (ih bmp) (ih bmp)))
      else None
  | _, _ => None
  end.

(** The sortID order of [Array.prototype.sort]'s comparator. *)
Definition sortID_le (a b : template) : Prop := sortID a <= sortID b.

(** [s.includes(c)] for a one-character [c]. *)
Definition has_char (c : ascii) (s : string) : bool := existsb (Ascii.eqb c) (list_ascii_of_string s).

(** White space in the sense of [\s] (ASCII). *)
Definition has_ws (s : string) : bool := existsb is_ws (list_ascii_of_string s).

(** A decimal digit character. *)
Definition digit_char (c : ascii) : Prop :=
  exists k, (k < 10)%nat /\ c = ascii_of_nat (48 + k).

(** The documents [importJSON] accepts: a falsy [whoami] (replaced by the
    current name when a [templates] map is present) or one on the list. *)
Definition import_accepted (m : manager) (d : doc) : Prop :=
  whoami_falsy d = true \/ exists w, whoami d = Some w /\ In w (accepted_whoami m).

(** The document and the array after [toggleTemplate(key, en)] has run
    for every key of [done]. *)
Definition F_done (en : bool) (done : list string) (kv : string * entry) : string * entry :=
  if existsb (String.eqb (fst kv)) done then (fst kv, entry_set_enabled en (snd kv)) else kv.

Definition G_done (en : bool) (done : list string) (t : template) : template :=
  if existsb (fun k => key_matches k t) done then set_enabled en t else t.

(* ------------------------------------------------------------------ *)
(** ** Lemmas on the model *)

Lemma get_set_eq {V : Type} (o : list (string * V)) (k : string) (v : V) :
  get (set o k v) k = Some v.
Proof.
  induction o as [|[k' v'] r IH]; cbn; [now rewrite String.eqb_refl|].
  destruct (String.eqb k k') eqn:E; cbn; rewrite ?E; [reflexivity|exact IH].
Qed.

Lemma ensureJSON_array (m : manager) : templatesArray (ensureJSON m) = templatesArray m.
Proof. unfold ensureJSON; destruct (templatesJSON m); reflexivity. Qed.

Lemma sum_range_split (f : Z -> Z) (a b : nat) : forall lo,
  sum_range f lo (a + b) = sum_range f lo a + sum_range f (lo + Z.of_nat a) b.
Proof.
  induction a as [|a IH]; intros lo; cbn [sum_range Nat.add].
  - rewrite Z.add_0_r. reflexivity.
  - rewrite IH. replace (lo + 1 + Z.of_nat a) with (lo + Z.of_nat (S a)) by lia. ring.
Qed.

Lemma sum_range_ext (f g : Z -> Z) (n : nat) : forall lo,
  (forall z, lo <= z < lo + Z.of_nat n -> f z = g z) ->
  sum_range f lo n = sum_range g lo n.
Proof.
  induction n as [|n IH]; intros lo H; cbn [sum_range]; [reflexivity|].
  rewrite (H lo) by lia. f_equal. apply IH. intros z Hz. apply H. lia.
Qed.

Lemma sum_range_zero (n : nat) : forall lo, sum_range (fun _ => 0) lo n = 0.
Proof. induction n as [|n IH]; intros lo; cbn; [reflexivity|]. rewrite IH. reflexivity. Qed.

(** A step-3 loop accumulating [g i] sums [g] over the indices of its
    residue class. *)
Lemma step3_loop_sum (body : Z -> Z -> Z) (g : Z -> Z) (bound r : Z) :
  (forall i acc, body i acc = acc + g i) ->
  forall fuel i acc, i mod 3 = r -> (Z.to_nat (bound - i) <= fuel)%nat ->
  step3_loop body bound i fuel acc
    = acc + sum_range (fun z => if z mod 3 =? r then g z else 0) i (Z.to_nat (bound - i)).
Proof.
  intros Hbody fuel. induction fuel as [|f IH]; intros i acc Hr Hf.
  - cbn. replace (Z.to_nat (bound - i)) with O by lia. cbn. ring.
  - cbn [step3_loop]. destruct (i <? bound) eqn:Hlt.
    + apply Z.ltb_lt in Hlt. rewrite IH.
      2: { rewrite <- Hr. replace (i + 3) with (i + 1 * 3) by ring. apply Z.mod_add. lia. }
      2: lia.
      rewrite Hbody.
      assert (H1 : ((i + 1) mod 3 =? r) = false).
      { apply Z.eqb_neq. subst r. Z.div_mod_to_equations. lia. }
      assert (H2 : ((i + 1 + 1) mod 3 =? r) = false).
      { apply Z.eqb_neq. subst r. Z.div_mod_to_equations. lia. }
      assert (H0 : (i mod 3 =? r) = true) by (apply Z.eqb_eq; exact Hr).
      destruct (Z_lt_le_dec (bound - i) 3) as [Hs|Hs].
      * replace (Z.to_nat (bound - (i + 3))) with O by lia. cbn [sum_range].
        assert (Hn : Z.to_nat (bound - i) = 1%nat \/ Z.to_nat (bound - i) = 2%nat) by lia.
        destruct Hn as [-> | ->]; cbn [sum_range]; rewrite ?H0, ?H1; ring.
      * replace (Z.to_nat (bound - i)) with (3 + Z.to_nat (bound - (i + 3)))%nat by lia.
        rewrite sum_range_split. cbn [sum_range]. rewrite H0, H1, H2.
        replace (i + Z.of_nat 3) with (i + 3) by reflexivity. ring.
    + apply Z.ltb_ge in Hlt. replace (Z.to_nat (bound - i)) with O by lia. cbn. ring.
Qed.

Lemma in_rect_true (x y rx ry rw rh : Z) :
  rx <= x < rx + rw -> ry <= y < ry + rh -> in_rect x y rx ry rw rh = true.
Proof.
  intros Hx Hy. unfold in_rect.
  repeat rewrite andb_true_iff. rewrite !Z.leb_le, !Z.ltb_lt. lia.
Qed.

Lemma sample_same (x w : Z) : 0 < w -> 0 <= x -> sample x 0 w w = x.
Proof.
  intros Hw Hx. unfold sample.
  replace ((2 * (x - 0) + 1) * w) with (x * (2 * w) + w) by ring.
  rewrite Z.div_add_l by lia. rewrite (Z.div_small w (2 * w)) by lia. ring.
Qed.

Lemma drawn_canvas_pix (B : browser) (bmp : image) (x y : Z) :
  0 <= x < iw bmp -> 0 <= y < ih bmp ->
  pix (surface (drawn_canvas B bmp)) x y = over B (pix bmp x y) transparent.
Proof.
  intros Hx Hy. unfold drawn_canvas, drawImage3, drawImage5, clearRect, new_ctx, drawable.
  cbn. rewrite !in_rect_true by lia. cbn.
  rewrite !sample_same by lia. reflexivity.
Qed.

Lemma getImageData_alpha (c : ctx) (w h : Z) (d : imageData) (x y : Z) :
  getImageData c w h = Some d -> 0 <= x < w -> 0 <= y < h ->
  id_data d ((y * w + x) * 4 + 3) = Some (alpha (pix (surface c) x y)).
Proof.
  intros G Hx Hy. unfold getImageData in G.
  destruct ((w =? 0) || (h =? 0)); [discriminate|]. injection G as <-. cbn.
  assert (Hr : ((0 <=? (y * w + x) * 4 + 3) && ((y * w + x) * 4 + 3 <? w * h * 4)) = true).
  { apply andb_true_iff. rewrite Z.leb_le, Z.ltb_lt. nia. }
  rewrite Hr.
  rewrite Z.div_add_l by lia. rewrite (Z.div_small 3 4) by lia. rewrite Z.add_0_r.
  replace (y * w + x) with (x + y * w) by ring.
  rewrite Z.mod_add by lia. rewrite Z.mod_small by lia.
  rewrite Z.div_add by lia. rewrite Z.div_small by lia. rewrite Z.add_0_l.
  replace (((x + y * w) * 4 + 3) mod 4) with 3.
  - reflexivity.
  - rewrite Z.add_comm. rewrite Z.mod_add by lia. reflexivity.
Qed.

Lemma sum_range_first_zero (f : Z -> Z) (n : nat) :
  (0 < n)%nat -> f 0 = 0 -> sum_range f 0 n = sum_range f 1 (n - 1).
Proof. intros Hn H0. destruct n as [|n]; [lia|]. cbn. rewrite H0, Nat.sub_0_r. reflexivity. Qed.

(** *** The sort and the selection of fragments *)

Lemma In_insert_by_sortID (t u : template) (l : list template) :
  In t (insert_by_sortID u l) <-> u = t \/ In t l.
Proof.
  induction l as [|v r IH]; cbn; [tauto|].
  destruct (sortID u <=? sortID v); cbn; [tauto|]. rewrite IH. tauto.
Qed.

Lemma In_sort_by_sortID (t : template) (l : list template) :
  In t (sort_by_sortID l) <-> In t l.
Proof.
  induction l as [|u r IH]; cbn; [tauto|]. rewrite In_insert_by_sortID, IH. tauto.
Qed.

Lemma insert_by_sortID_sorted (t : template) (l : list template) :
  StronglySorted sortID_le l -> StronglySorted sortID_le (insert_by_sortID t l).
Proof.
  induction l as [|u r IH]; intros Hs; cbn.
  - repeat constructor.
  - apply StronglySorted_inv in Hs as [Hr Hu].
    destruct (sortID t <=? sortID u) eqn:E.
    + apply Z.leb_le in E. constructor; [constructor; assumption|].
      constructor; [exact E|]. eapply Forall_impl; [|exact Hu].
      unfold sortID_le. intros a Ha. lia.
    + apply Z.leb_gt in E. constructor; [apply IH; exact Hr|].
      apply Forall_forall. intros a Ha. apply In_insert_by_sortID in Ha as [<-|Ha].
      * unfold sortID_le. lia.
      * rewrite Forall_forall in Hu. apply Hu, Ha.
Qed.

Lemma sort_by_sortID_sorted (l : list template) : StronglySorted sortID_le (sort_by_sortID l).
Proof.
  induction l as [|u r IH]; cbn; [constructor|]. apply insert_by_sortID_sorted, IH.
Qed.

Lemma filter_sorted {A : Type} (R : A -> A -> Prop) (p : A -> bool) (l : list A) :
  StronglySorted R l -> StronglySorted R (filter p l).
Proof.
  induction l as [|a r IH]; intros Hs; cbn; [constructor|].
  apply StronglySorted_inv in Hs as [Hr Ha].
  destruct (p a); [|apply IH, Hr].
  constructor; [apply IH, Hr|]. apply Forall_forall. intros b Hb.
  apply filter_In in Hb as [Hb _]. rewrite Forall_forall in Ha. apply Ha, Hb.
Qed.

Lemma In_filter_map_pair {A B : Type} (g : A -> option B) (p : A * B) (l : list A) :
  In p (filter_map (fun a => option_map (pair a) (g a)) l) <-> In (fst p) l /\ g (fst p) = Some (snd p).
Proof.
  induction l as [|a r IH]; cbn; [tauto|].
  destruct (g a) as [b|] eqn:E; cbn; rewrite IH; destruct p as [a' b']; cbn;
    split; intros H.
  - destruct H as [H|H]; [injection H as <- <-; tauto|tauto].
  - destruct H as [[<-|H] Hg]; [left; congruence|right; tauto].
  - tauto.
  - destruct H as [[<-|H] Hg]; [congruence|tauto].
Qed.

Lemma filter_map_pair_sorted {A B : Type} (R : A -> A -> Prop) (g : A -> option B) (l : list A) :
  StronglySorted R l ->
  StronglySorted (fun p q => R (fst p) (fst q)) (filter_map (fun a => option_map (pair a) (g a)) l).
Proof.
  induction l as [|a r IH]; intros Hs; cbn; [constructor|].
  apply StronglySorted_inv in Hs as [Hr Ha].
  destruct (g a) as [b|]; cbn; [|apply IH, Hr].
  constructor; [apply IH, Hr|]. apply Forall_forall. intros p Hp.
  apply In_filter_map_pair in Hp as [Hp _]. rewrite Forall_forall in Ha. apply Ha, Hp.
Qed.

Lemma filter_map_pair_snd {A B : Type} (g : A -> option B) (l : list A) :
  filter_map g l = map snd (filter_map (fun a => option_map (pair a) (g a)) l).
Proof.
  induction l as [|a r IH]; cbn; [reflexivity|]. destruct (g a); cbn; congruence.
Qed.

Lemma templatesToDraw_draw_seq (pre : string) (arr : list template) :
  templatesToDraw pre arr = map snd (draw_seq pre arr).
Proof. apply filter_map_pair_snd. Qed.

Lemma first_match_none (pre : string) (t : template) :
  first_match pre t = None <-> matching_tiles pre t = [].
Proof.
  unfold first_match. destruct (matching_tiles pre t) as [|[k b] r]; split; congruence.
Qed.

Lemma In_draw_seq (pre : string) (arr : list template) (t : template) :
  In t (map fst (draw_seq pre arr)) <->
  In t arr /\ enabled t = true /\ matching_tiles pre t <> [].
Proof.
  rewrite in_map_iff. split.
  - intros [[t' f] [<- Hin]]. apply In_filter_map_pair in Hin as [Hin Hf]. cbn in *.
    apply filter_In in Hin as [Hin He]. repeat split; [exact Hin|exact He|].
    rewrite <- first_match_none. congruence.
  - intros (Hin & He & Hm). destruct (first_match pre t) as [f|] eqn:E.
    + exists (t, f). split; [reflexivity|]. apply In_filter_map_pair. cbn.
      split; [apply filter_In; tauto|exact E].
    + apply first_match_none in E. contradiction.
Qed.

(** *** Pixels of the compositor's canvas *)

Lemma drawFrag_shape (B : browser) (mult : Z) (c : ctx) (f : fragment) :
  iw (surface (drawFrag B mult c f)) = iw (surface c) /\
  ih (surface (drawFrag B mult c f)) = ih (surface c) /\
  clip (drawFrag B mult c f) = clip c.
Proof.
  unfold drawFrag.
  destruct (Number_str (fst (f_pixelCoords f))), (Number_str (snd (f_pixelCoords f)));
    repeat split.
Qed.

Lemma drawable_drawFrag (B : browser) (mult : Z) (c : ctx) (f : fragment) (x y : Z) :
  drawable (drawFrag B mult c f) x y = drawable c x y.
Proof.
  destruct (drawFrag_shape B mult c f) as (Hw & Hh & Hc).
  unfold drawable. rewrite Hw, Hh, Hc. reflexivity.
Qed.

Lemma drawFrag_pix (B : browser) (mult : Z) (c : ctx) (f : fragment) (x y : Z) :
  drawable c x y = true ->
  pix (surface (drawFrag B mult c f)) x y =
  match frag_pixel mult f x y with
  | Some q => over B q (pix (surface c) x y)
  | None => pix (surface c) x y
  end.
Proof.
  intros Hd. unfold drawFrag, frag_pixel.
  destruct (Number_str (fst (f_pixelCoords f))) as [px|],
           (Number_str (snd (f_pixelCoords f))) as [py|]; try reflexivity.
  unfold drawImage3, drawImage5. cbn [surface pix]. rewrite Hd. cbn [andb].
  destruct (in_rect _ _ _ _ _ _); reflexivity.
Qed.

(** Fragments that leave a position uncovered or cover it with a fully
    transparent pixel do not change it. *)
Lemma fold_drawFrag_clear (B : browser) (mult : Z) (x y : Z) :
  (forall s d, alpha s = 0 -> over B s d = d) ->
  forall fs c,
  drawable c x y = true ->
  (forall g, In g fs -> match frag_pixel mult g x y with None => True | Some q => alpha q = 0 end) ->
  pix (surface (fold_left (drawFrag B mult) fs c)) x y = pix (surface c) x y.
Proof.
  intros Hclear fs. induction fs as [|g r IH]; intros c Hd Hfs; cbn [fold_left]; [reflexivity|].
  rewrite IH.
  - rewrite drawFrag_pix by exact Hd.
    specialize (Hfs g (or_introl eq_refl)).
    destruct (frag_pixel mult g x y); [apply Hclear, Hfs|reflexivity].
  - rewrite drawable_drawFrag. exact Hd.
  - intros g' Hg'. apply Hfs. right. exact Hg'.
Qed.

Lemma drawable_fold_drawFrag (B : browser) (mult : Z) (x y : Z) :
  forall fs c, drawable (fold_left (drawFrag B mult) fs c) x y = drawable c x y.
Proof.
  intros fs. induction fs as [|g r IH]; intros c; cbn [fold_left]; [reflexivity|].
  rewrite IH. apply drawable_drawFrag.
Qed.

Lemma fold_drawFrag_shape (B : browser) (mult : Z) :
  forall fs c,
  iw (surface (fold_left (drawFrag B mult) fs c)) = iw (surface c) /\
  ih (surface (fold_left (drawFrag B mult) fs c)) = ih (surface c).
Proof.
  intros fs. induction fs as [|g r IH]; intros c; cbn [fold_left]; [split; reflexivity|].
  destruct (IH (drawFrag B mult c g)) as [H1 H2].
  destruct (drawFrag_shape B mult c g) as (H3 & H4 & _). split; congruence.
Qed.

(** The canvas of [composite] before the fragments: the tile scaled to
    the draw size over a transparent background. *)
Lemma composite_base (B : browser) (ds : Z) (tile : image) (x y : Z) :
  0 <= x < ds -> 0 <= y < ds ->
  let c3 := drawImage5 B (clearRect (clip_rect (new_ctx ds ds) 0 0 ds ds) 0 0 ds ds)
                       tile 0 0 ds ds in
  drawable c3 x y = true /\
  iw (surface c3) = ds /\ ih (surface c3) = ds /\
  pix (surface c3) x y = over B (pix tile (sample x 0 (iw tile) ds) (sample y 0 (ih tile) ds)) transparent.
Proof.
  intros Hx Hy c3. unfold c3, drawImage5, clearRect, clip_rect, new_ctx, drawable.
  cbn [surface pix iw ih clip]. rewrite !in_rect_true by lia. repeat split.
Qed.

Lemma std_over_opaque (s d : rgba) : alpha s = 255 -> std_over s d = s.
Proof.
  intros H. destruct s as [r g b a]. cbn [alpha] in H. subst a. unfold std_over.
  cbn [alpha red green blue]. rewrite Z.sub_diag, !Z.mul_0_r, !Z.div_0_l, !Z.add_0_r by lia.
  cbn [Z.eqb]. rewrite !Z.div_mul by lia. reflexivity.
Qed.

Lemma std_over_clear (s d : rgba) : alpha s = 0 -> std_over s d = d.
Proof.
  intros H. destruct d as [r g b a]. unfold std_over.
  cbn [alpha red green blue]. rewrite H, Z.sub_0_r, !Z.mul_0_r, !Z.add_0_l.
  rewrite !(fun z => Z.div_mul z 255 ltac:(lia)).
  destruct (a =? 0) eqn:E; [reflexivity|]. apply Z.eqb_neq in E.
  rewrite !(fun z => Z.div_mul z a E). reflexivity.
Qed.

Lemma count_centres_correct (B : browser) (bmp : image) (d : imageData) (total : Z) :
  (forall s, alpha (over B s transparent) = alpha s) ->
  0 < iw bmp -> 0 < ih bmp ->
  getImageData (drawn_canvas B bmp) (iw bmp) (ih bmp) = Some d ->
  count_centres d total = total + centre_cells bmp.
Proof.
  intros Halpha Hw Hh G.
  assert (Hd : id_width d = iw bmp /\ id_height d = ih bmp).
  { unfold getImageData in G. destruct ((iw bmp =? 0) || (ih bmp =? 0)); [discriminate|].
    injection G as <-. split; reflexivity. }
  destruct Hd as [Hdw Hdh].
  unfold count_centres. rewrite Hdw, Hdh.
  set (w := iw bmp) in *. set (h := ih bmp) in *.
  set (gd := fun y x => match id_data d ((y * w + x) * 4 + 3) with
                        | Some a => if 0 <? a then 1 else 0 | None => 0 end).
  set (G' := fun y => sum_range (fun z => if z mod 3 =? 1 then gd y z else 0) 1 (Z.to_nat (w - 1))).
  assert (Inner : forall y t,
    step3_loop (fun x t' => match id_data d ((y * w + x) * 4 + 3) with
                            | Some a => if 0 <? a then t' + 1 else t' | None => t' end)
               w 1 (Z.to_nat w) t = t + G' y).
  { intros y t. unfold G'. apply (step3_loop_sum _ (gd y)); [|reflexivity|lia].
    intros i acc. unfold gd. destruct (id_data d ((y * w + i) * 4 + 3)); [|ring].
    destruct (0 <? z); ring. }
  rewrite (step3_loop_sum _ G' h 1 Inner (Z.to_nat h) 1 total eq_refl) by lia.
  f_equal. unfold centre_cells. fold w h.
  rewrite sum_range_first_zero; cycle 1.
  { lia. }
  { rewrite sum_range_ext with (g := fun _ => 0); [apply sum_range_zero|].
    intros; rewrite !andb_false_r; reflexivity. }
  replace (Z.to_nat h - 1)%nat with (Z.to_nat (h - 1)) by lia.
  apply sum_range_ext. intros y Hy.
  destruct (y mod 3 =? 1) eqn:Ey.
  - unfold G'.
    rewrite (sum_range_first_zero _ (Z.to_nat w)) by (try lia; reflexivity).
    replace (Z.to_nat w - 1)%nat with (Z.to_nat (w - 1)) by lia.
    apply sum_range_ext. intros x Hx.
    destruct (x mod 3 =? 1); cbn [andb]; [|reflexivity].
    unfold gd. rewrite (getImageData_alpha _ w h d x y G) by lia.
    rewrite drawn_canvas_pix by (unfold w, h in *; lia). rewrite Halpha. reflexivity.
  - rewrite sum_range_ext with (g := fun _ => 0); [symmetry; apply sum_range_zero|].
    intros x _. rewrite andb_false_r. reflexivity.
Qed.

Lemma pc_loop_correct (B : browser) (tiles : list (string * image)) :
  (forall s, alpha (over B s transparent) = alpha s) ->
  (forall k bmp, In (k, bmp) tiles -> 0 < iw bmp /\ 0 < ih bmp) ->
  forall total, pc_loop B tiles total = Some (total + centre_cells_total tiles).
Proof.
  intros Halpha. induction tiles as [|[k bmp] r IH]; intros Hpos total.
  - cbn. f_equal. ring.
  - cbn [pc_loop]. fold (drawn_canvas B bmp).
    destruct (Hpos k bmp (or_introl eq_refl)) as [Hw Hh].
    destruct (getImageData (drawn_canvas B bmp) (iw bmp) (ih bmp)) as [d|] eqn:G.
    + rewrite IH by (intros k' b' Hin; apply (Hpos k'); right; exact Hin).
      rewrite (count_centres_correct B bmp d total Halpha Hw Hh G).
      unfold centre_cells_total. cbn [fold_right snd]. f_equal. ring.
    + unfold getImageData in G.
      replace (iw bmp =? 0) with false in G by (symmetry; apply Z.eqb_neq; lia).
      replace (ih bmp =? 0) with false in G by (symmetry; apply Z.eqb_neq; lia).
      discriminate.
Qed.

(* ------------------------------------------------------------------ *)
(** ** Claims about the mutating operations *)

(** C2 (counterexample): create, delete it, create again: the second
    template gets sortID 0, the sortID of the deleted one. *)
Lemma createTemplate_reuses_deleted_sortID :
  let r1 := createTemplate m0 "A" zero4 (Some chunk1) in
  let r2 := deleteTemplate (fst r1) "0 !" in
  let r3 := createTemplate (fst r2) "B" zero4 (Some chunk1) in
  map sortID (templatesArray (fst r1)) = [0] /\
  map sortID (templatesArray (fst r2)) = [] /\
  templates_count (fst r2) = Some O /\
  map sortID (templatesArray (fst r3)) = [0].
Proof. vm_compute. repeat split; reflexivity. Qed.

(** C2 (amended): [createTemplate] assigns as [sortID] the number of
    entries of the persisted templates map at the moment of creation (so
    after a deletion a former sortID can be assigned again), and appends
    that template to [templatesArray]. *)
Theorem createTemplate_sortID_is_entry_count (m : manager) (nm : string)
    (cs : list num) (ch : chunk_result) (n : nat) :
  templates_count m = Some n ->
  exists t,
    templatesArray (fst (createTemplate m nm cs (Some ch))) = templatesArray m ++ [t] /\
    sortID t = Z.of_nat n /\
    snd (createTemplate m nm cs (Some ch)) = Ok tt.
Proof.
  unfold templates_count, createTemplate, ensureJSON.
  destruct (templatesJSON m) as [d|] eqn:E; cbn [templatesJSON add_status with_json].
  - rewrite E. destruct (templates d) as [ts|]; cbn; intros H; [|discriminate].
    injection H as <-. eexists; split; [reflexivity|]. split; reflexivity.
  - intros H; injection H as <-. cbn. eexists; split; [reflexivity|]. split; reflexivity.
Qed.

(** After one template was created and deleted, the map is empty again
    and the next template gets sortID 0. *)
Lemma createTemplate_sortID_is_entry_count_witness :
  let m2 := fst (deleteTemplate m_one "0 !") in
  templates_count m2 = Some O /\
  exists t,
    templatesArray (fst (createTemplate m2 "B" zero4 (Some chunk1))) = templatesArray m2 ++ [t] /\
    sortID t = Z.of_nat 0 /\
    snd (createTemplate m2 "B" zero4 (Some chunk1)) = Ok tt.
Proof.
  intros m2. split; [vm_compute; reflexivity|].
  apply (createTemplate_sortID_is_entry_count m2 "B" zero4 chunk1 0). vm_compute. reflexivity.
Defined.

(** C1 (code defect): the source comment "Ensure all coordinates are
    numbers within valid ranges" is not implemented:
    [updateTemplateCoordinates(key, [2048, 0, 0, 0])] on a stored
    template succeeds, and the out-of-range coordinates replace the old
    ones both in the document entry and in the template instance. *)
Lemma updateTemplateCoordinates_accepts_2048 :
  let m1 := fst (createTemplate m0 "A" zero4 (Some chunk1)) in
  let u := updateTemplateCoordinates m1 "0 !" (Some [Fin 2048; Fin 0; Fin 0; Fin 0]) in
  option_map (fun ts => option_map e_coords (get ts "0 !")) (json_templates m1)
    = Some (Some (Some "0, 0, 0, 0"%string)) /\
  snd u = Ok "Template coordinates updated to: 2048, 0, 0, 0"%string /\
  option_map (fun ts => option_map e_coords (get ts "0 !")) (json_templates (fst u))
    = Some (Some (Some "2048, 0, 0, 0"%string)) /\
  map coords (templatesArray (fst u)) = [Some [Fin 2048; Fin 0; Fin 0; Fin 0]].
Proof. vm_compute. repeat split; try reflexivity; discriminate. Qed.

(** X23: [updateTemplateCoordinates(key, newCoords)] rejects exactly the
    arguments that are not an array of four finite numbers, leaving the
    document and the template array unchanged; for four finite numbers
    (in any range) it returns the confirmation, stores the joined
    coordinates in the entry under [key] and [newCoords] in the first
    template instance matching [key]. *)
Theorem updateTemplateCoordinates_checks (m : manager) (key : string)
    (cs : option (list num)) :
  (coords_ok cs = false ->
     (exists err, snd (updateTemplateCoordinates m key cs) = Throw err) /\
     templatesJSON (fst (updateTemplateCoordinates m key cs)) = templatesJSON (ensureJSON m) /\
     templatesArray (fst (updateTemplateCoordinates m key cs)) = templatesArray m) /\
  (forall l ts e,
     cs = Some l -> coords_ok cs = true ->
     json_templates (ensureJSON m) = Some ts -> get ts key = Some e ->
     snd (updateTemplateCoordinates m key cs)
       = Ok ("Template coordinates updated to: " ++ join ", " (map num_to_string l))%string /\
     option_map (fun ts' => get ts' key) (json_templates (fst (updateTemplateCoordinates m key cs)))
       = Some (Some (entry_set_coords (join ", " (map num_to_string l)) e)) /\
     templatesArray (fst (updateTemplateCoordinates m key cs))
       = update_first (key_matches key) (set_coords l) (templatesArray m)).
Proof.
  split.
  - intros Hok. unfold updateTemplateCoordinates.
    destruct cs as [l|]; [|repeat split; [eexists; reflexivity|apply ensureJSON_array]].
    cbn [coords_ok] in Hok.
    destruct (List.length l =? 4)%nat; cbn [negb andb] in *;
      [rewrite Hok|]; repeat split; try (eexists; reflexivity); apply ensureJSON_array.
  - intros l ts e -> Hok Hts Hget. unfold updateTemplateCoordinates.
    cbn [coords_ok] in Hok. apply andb_true_iff in Hok as [H4 Hf].
    rewrite H4, Hf. cbn [negb].
    unfold json_templates in Hts.
    destruct (templatesJSON (ensureJSON m)) as [d|]; [|discriminate].
    rewrite Hts, Hget. split; [reflexivity|]. split.
    + cbn. rewrite get_set_eq. reflexivity.
    + cbn [fst templatesArray storeTemplates with_array with_json].
      rewrite ensureJSON_array. reflexivity.
Qed.

Lemma updateTemplateCoordinates_checks_witness :
  (coords_ok coords_nan = false /\
   exists err, snd (updateTemplateCoordinates m_one "0 !" coords_nan) = Throw err) /\
  (json_templates (ensureJSON m_one) <> None /\
   snd (updateTemplateCoordinates m_one "0 !" coords_far)
     = Ok "Template coordinates updated to: 2048, 0, 0, 0"%string).
Proof.
  split.
  - split; [reflexivity|].
    apply (proj1 (updateTemplateCoordinates_checks m_one "0 !" coords_nan)). reflexivity.
  - split; [vm_compute; discriminate|].
    refine (proj1 (proj2 (updateTemplateCoordinates_checks m_one "0 !" coords_far)
                     [Fin 2048; Fin 0; Fin 0; Fin 0] _ _ eq_refl eq_refl _ _)).
    + vm_compute. reflexivity.
    + vm_compute. reflexivity.
Defined.

(* ------------------------------------------------------------------ *)
(** ** Claims about the importer *)

(** C7 (counterexample): a document whose [whoami] is the empty string
    (not in the allow-list) is adopted, under the current name. *)
Lemma importJSON_adopts_empty_whoami :
  ~ In ""%string (accepted_whoami m0) /\
  templatesJSON m0 = None /\
  option_map whoami (templatesJSON (fst (importJSON std_browser m0 (Some doc_empty_whoami))))
    = Some (Some "BluePeanits"%string) /\
  List.length (templatesArray (fst (importJSON std_browser m0 (Some doc_empty_whoami)))) = 1%nat.
Proof.
  split; [cbn; intuition discriminate|].
  vm_compute. repeat split; reflexivity.
Qed.

(** C7 (amended): a document whose [whoami] is a non-empty string outside
    the allow-list (["BlueMarble"], ["BluePeanits"], ["BluePeanuts"], the
    current name without white space) is rejected: [importJSON] leaves
    the manager, document and template array included, unchanged.  A
    document with a missing or empty [whoami] and a [templates] object is
    not rejected: it is given the current name without white space, which
    is on the allow-list, and [importJSON] then does exactly what it does
    for the document carrying that name. *)
Theorem importJSON_rejects_unrecognized_whoami (B : browser) (m : manager) (d : doc) :
  (forall w, whoami d = Some w -> w <> ""%string -> ~ In w (accepted_whoami m) ->
     importJSON B m (Some d) = (m, Ok tt)) /\
  (forall ts, whoami_falsy d = true -> templates d = Some ts ->
     In (remove_ws (name m)) (accepted_whoami m) /\
     importJSON B m (Some d) = importJSON B m (Some (set_whoami d (remove_ws (name m))))).
Proof.
  split.
  - intros w Hw Hne Hin. unfold importJSON.
    assert (Hf : whoami_falsy d = false).
    { unfold whoami_falsy. rewrite Hw. apply String.eqb_neq. exact Hne. }
    rewrite Hf. cbn [andb]. rewrite Hw.
    assert (He : existsb (String.eqb w) (accepted_whoami m) = false).
    { apply Bool.not_true_iff_false. intros H. apply existsb_exists in H as [x [Hx Heq]].
      apply String.eqb_eq in Heq. subst x. contradiction. }
    rewrite He. reflexivity.
  - intros ts Hf Hts. split; [cbn; tauto|].
    set (cn := remove_ws (name m)).
    assert (Hidem : set_whoami (set_whoami d cn) cn = set_whoami d cn) by reflexivity.
    unfold importJSON. fold cn. rewrite Hf, Hts. cbn [andb].
    assert (Hts' : templates (set_whoami d cn) = Some ts) by exact Hts.
    rewrite Hts'.
    destruct (whoami_falsy (set_whoami d cn)); cbn [andb]; rewrite ?Hidem, ?Hts'; reflexivity.
Qed.

Lemma importJSON_rejects_unrecognized_whoami_witness :
  importJSON std_browser m0 (Some (set_whoami doc1 "SomeOtherTool")) = (m0, Ok tt) /\
  importJSON std_browser m0 (Some doc_empty_whoami)
    = importJSON std_browser m0 (Some (set_whoami doc_empty_whoami "BluePeanits")).
Proof.
  split.
  - apply (proj1 (importJSON_rejects_unrecognized_whoami std_browser m0 _) "SomeOtherTool"%string).
    + reflexivity.
    + discriminate.
    + cbn. intuition discriminate.
  - exact (proj2 (proj2 (importJSON_rejects_unrecognized_whoami std_browser m0 doc_empty_whoami)
                   _ eq_refl eq_refl)).
Defined.

(** C3 (code defect): importing the same document twice into an empty
    manager leaves the document as after one import, but the second
    import pushes the already-present template into [templatesArray]
    again. *)
Theorem importJSON_twice_duplicates_templates :
  let m1 := fst (importJSON std_browser m0 (Some doc1)) in
  let m2 := fst (importJSON std_browser m1 (Some doc1)) in
  templatesJSON m2 = templatesJSON m1 /\
  List.length (templatesArray m1) = 1%nat /\
  List.length (templatesArray m2) = 2%nat.
Proof. vm_compute. repeat split; reflexivity. Qed.

(* ------------------------------------------------------------------ *)
(** ** Claims about the compositor *)

(** C10: with [templatesShouldBeDrawn] false, [drawTemplateOnTile]
    returns the input blob itself and leaves the manager (status log
    included) unchanged, whatever templates match the tile. *)
Theorem drawTemplateOnTile_not_drawn (B : browser) (m : manager) (b : blob) (tx ty : Z) :
  templatesShouldBeDrawn m = false ->
  drawTemplateOnTile B m b tx ty = (m, Ok b).
Proof. intros H. unfold drawTemplateOnTile. rewrite H. reflexivity. Qed.

Lemma drawTemplateOnTile_not_drawn_witness :
  drawTemplateOnTile std_browser (setTemplatesShouldBeDrawn m_two false) tile1000 0 0
    = (setTemplatesShouldBeDrawn m_two false, Ok tile1000).
Proof. apply drawTemplateOnTile_not_drawn. reflexivity. Defined.

(** C5 (code defect): [drawTemplateOnTile] sorts [templatesArray] in
    place: an array held in order of sortIDs 5, 2 is left in order 2, 5. *)
Theorem drawTemplateOnTile_reorders_templatesArray :
  map sortID (templatesArray m_two) = [5; 2] /\
  map sortID (templatesArray (fst (drawTemplateOnTile std_browser m_two tile1000 0 0))) = [2; 5].
Proof. vm_compute. split; reflexivity. Qed.

(** C4 (counterexample): with no template on the tile, a 1000 x 1000 tile
    comes back as a 3000 x 3000 image (tileSize x drawMult). *)
Lemma drawTemplateOnTile_no_match_rescales :
  templatesArray m0 = [] /\
  templatesShouldBeDrawn m0 = true /\
  match createImageBitmap tile1000 with Some i => iw i = 1000 /\ ih i = 1000 | None => False end /\
  match snd (drawTemplateOnTile std_browser m0 tile1000 0 0) with
  | Ok (PngBlob out) => iw out = 3000 /\ ih out = 3000
  | _ => False
  end /\
  status (fst (drawTemplateOnTile std_browser m0 tile1000 0 0)) = [MsgDisplayingNone 0].
Proof. vm_compute. repeat split; reflexivity. Qed.

(** C4 (amended): when no enabled template has a fragment on the tile,
    [drawTemplateOnTile] (drawing enabled, tile decodable) reports zero
    templates and returns an image of [tileSize * drawMult] pixels
    square, whose every pixel is the nearest-neighbour sample of the
    input tile, scaled to that size, composited over a transparent
    background. *)
Theorem drawTemplateOnTile_no_match (B : browser) (m : manager) (tb : blob) (tx ty : Z)
    (tile : image) :
  templatesShouldBeDrawn m = true ->
  createImageBitmap tb = Some tile ->
  (forall t, In t (templatesArray m) -> enabled t = true ->
             matching_tiles (tile_prefix tx ty) t = []) ->
  exists out,
    drawTemplateOnTile B m tb tx ty
      = (add_status (with_array m (sort_by_sortID (templatesArray m))) (MsgDisplayingNone 0),
         Ok (PngBlob out)) /\
    iw out = tileSize m * drawMult m /\ ih out = tileSize m * drawMult m /\
    (forall x y, 0 <= x < iw out -> 0 <= y < ih out ->
       pix out x y = over B (pix tile (sample x 0 (iw tile) (iw out))
                                      (sample y 0 (ih tile) (ih out))) transparent).
Proof.
  intros Hflag Hbmp Hnone.
  set (pre := tile_prefix tx ty).
  assert (Hnil : templatesToDraw pre (sort_by_sortID (templatesArray m)) = []).
  { rewrite templatesToDraw_draw_seq.
    destruct (draw_seq pre (sort_by_sortID (templatesArray m))) as [|[t f] r] eqn:E;
      [reflexivity|exfalso].
    assert (Hin : In t (map fst (draw_seq pre (sort_by_sortID (templatesArray m)))))
      by (rewrite E; left; reflexivity).
    apply In_draw_seq in Hin as (Hin & He & Hm). rewrite In_sort_by_sortID in Hin.
    exact (Hm (Hnone t Hin He)). }
  unfold drawTemplateOnTile. rewrite Hflag, Hbmp. cbn [negb]. fold pre. rewrite Hnil.
  eexists. split; [reflexivity|].
  set (ds := tileSize m * drawMult m).
  unfold composite. cbn [fold_left].
  split; [reflexivity|]. split; [reflexivity|].
  intros x y Hx Hy. cbn [surface iw ih new_ctx clip_rect clearRect drawImage5] in Hx, Hy.
  destruct (composite_base B ds tile x y Hx Hy) as (_ & _ & _ & Hp).
  exact Hp.
Qed.

Lemma drawTemplateOnTile_no_match_witness :
  exists out,
    drawTemplateOnTile std_browser m0 tile1000 0 0
      = (add_status (with_array m0 []) (MsgDisplayingNone 0), Ok (PngBlob out)) /\
    iw out = 3000.
Proof.
  destruct (drawTemplateOnTile_no_match std_browser m0 tile1000 0 0
              (solid 1000 1000 {| red := 10; green := 20; blue := 30; alpha := 255 |})
              eq_refl eq_refl (fun t (Hin : In t []) _ => match Hin with end))
    as (out & Hres & Hw & _).
  exists out. split; [exact Hres|]. rewrite Hw. reflexivity.
Defined.

(** C6: [drawTemplateOnTile] draws the enabled templates that have a
    fragment on the tile, and only those, in ascending sortID order
    (equal sortIDs keeping their array order); a fragment drawn later
    overwrites earlier ones: at a canvas position that a fragment covers
    with an opaque pixel, and that no fragment drawn after it covers
    with a non-transparent pixel, the output shows that fragment's
    pixel.  So where two templates overlap with opaque pixels, the one
    with the higher sortID determines the output.  (For a source-over
    that returns an opaque source and keeps the destination under a
    fully transparent source.) *)
Theorem drawTemplateOnTile_ascending_sortID (B : browser) (m : manager) (tb : blob)
    (tx ty : Z) (tile : image) :
  (forall s d, alpha s = 255 -> over B s d = s) ->
  (forall s d, alpha s = 0 -> over B s d = d) ->
  templatesShouldBeDrawn m = true ->
  createImageBitmap tb = Some tile ->
  let seq := draw_seq (tile_prefix tx ty) (sort_by_sortID (templatesArray m)) in
  StronglySorted (fun p q => sortID_le (fst p) (fst q)) seq /\
  (forall t, In t (map fst seq) <->
             In t (templatesArray m) /\ enabled t = true /\
             matching_tiles (tile_prefix tx ty) t <> []) /\
  exists out,
    snd (drawTemplateOnTile B m tb tx ty) = Ok (PngBlob out) /\
    forall i t f x y q,
      nth_error seq i = Some (t, f) ->
      0 <= x < tileSize m * drawMult m -> 0 <= y < tileSize m * drawMult m ->
      frag_pixel (drawMult m) f x y = Some q -> alpha q = 255 ->
      (forall j g, (i < j)%nat -> nth_error seq j = Some g ->
         match frag_pixel (drawMult m) (snd g) x y with None => True | Some q' => alpha q' = 0 end) ->
      pix out x y = q.
Proof.
  intros Hopaque Hclear Hflag Hbmp seq.
  split; [|split].
  - apply filter_map_pair_sorted, filter_sorted, sort_by_sortID_sorted.
  - intros t. unfold seq. rewrite In_draw_seq, In_sort_by_sortID. tauto.
  - unfold drawTemplateOnTile. rewrite Hflag, Hbmp. cbn [negb].
    eexists. split; [reflexivity|].
    intros i t f x y q Hi Hx Hy Hq Ha Hlater.
    cbn [convertToBlob]. unfold composite.
    rewrite templatesToDraw_draw_seq. fold seq.
    destruct (nth_error_split seq i Hi) as (l1 & l2 & Hsplit & Hlen).
    rewrite Hsplit, map_app, fold_left_app. cbn [map fold_left snd].
    set (ds := tileSize m * drawMult m) in *.
    destruct (composite_base B ds tile x y Hx Hy) as (Hd & _ & _ & _).
    set (c3 := drawImage5 B _ tile 0 0 ds ds) in *.
    set (c4 := fold_left (drawFrag B (drawMult m)) (map snd l1) c3).
    assert (Hd4 : drawable c4 x y = true) by (unfold c4; rewrite drawable_fold_drawFrag; exact Hd).
    rewrite fold_drawFrag_clear.
    + rewrite drawFrag_pix by exact Hd4. rewrite Hq. apply Hopaque, Ha.
    + exact Hclear.
    + rewrite drawable_drawFrag. exact Hd4.
    + intros g Hg. apply in_map_iff in Hg as [p [<- Hp]].
      apply In_nth_error in Hp as [k Hk].
      apply (Hlater (S (i + k)) p); [lia|].
      rewrite Hsplit, nth_error_app2 by lia.
      replace (S (i + k) - List.length l1)%nat with (S k) by lia. exact Hk.
Qed.

(** Two opaque templates covering the same cells of tile (0, 0), held in
    the array with sortIDs 5 then 2: the cell shows the sortID-5 one. *)
Lemma drawTemplateOnTile_ascending_sortID_witness :
  exists out,
    snd (drawTemplateOnTile std_browser m_two tile1000 0 0) = Ok (PngBlob out) /\
    map (fun p => sortID (fst p))
        (draw_seq (tile_prefix 0 0) (sort_by_sortID (templatesArray m_two))) = [2; 5] /\
    pix out 1 1 = opaque_blue.
Proof.
  destruct (drawTemplateOnTile_ascending_sortID std_browser m_two tile1000 0 0
              (solid 1000 1000 {| red := 10; green := 20; blue := 30; alpha := 255 |})
              std_over_opaque std_over_clear eq_refl eq_refl)
    as (_ & _ & out & Hres & Hpix).
  exists out. split; [exact Hres|]. split; [vm_compute; reflexivity|].
  apply (Hpix 1%nat (tmpl 5 opaque_blue)
           {| f_bitmap := solid 3 3 opaque_blue;
              f_tileCoords := (Some "0000"%string, Some "0000"%string);
              f_pixelCoords := (Some "000"%string, Some "000"%string) |}).
  - vm_compute. reflexivity.
  - change (0 <= 1 < 3000). lia.
  - change (0 <= 1 < 3000). lia.
  - vm_compute. reflexivity.
  - reflexivity.
  - intros j g Hj Hg. destruct j as [|[|j]]; [lia|lia|].
    vm_compute in Hg. destruct j; discriminate.
Defined.

(* ------------------------------------------------------------------ *)
(** ** Claims about the pixel count *)

Lemma std_over_alpha_transparent (s : rgba) : alpha (over std_browser s transparent) = alpha s.
Proof. cbn. lia. Qed.

(** C9: the reconstructor returns the number of cells, summed over all
    fragments, whose x and y are both congruent to 1 modulo 3 and whose
    alpha is non-zero (for bitmaps as [createImageBitmap] yields them,
    with positive dimensions, in a page where a canvas can be created, and
    a source-over that keeps the alpha of a pixel drawn on a transparent
    canvas). *)
Theorem computePixelCountFromTiles_counts_centres (B : browser)
    (tiles : list (string * image)) :
  (forall s, alpha (over B s transparent) = alpha s) ->
  hasOffscreenCanvas B || hasDocument B = true ->
  (forall k bmp, In (k, bmp) tiles -> 0 < iw bmp /\ 0 < ih bmp) ->
  computePixelCountFromTiles B tiles = Some (centre_cells_total tiles).
Proof.
  intros Halpha Hcanvas Hpos. unfold computePixelCountFromTiles. rewrite Hcanvas.
  rewrite (pc_loop_correct B tiles Halpha Hpos 0). reflexivity.
Qed.

Lemma computePixelCountFromTiles_counts_centres_witness :
  computePixelCountFromTiles std_browser tiles_7x5 = Some (centre_cells_total tiles_7x5) /\
  centre_cells_total tiles_7x5 = 4.
Proof.
  split.
  - apply computePixelCountFromTiles_counts_centres.
    + apply std_over_alpha_transparent.
    + reflexivity.
    + intros k bmp [H|[]]. injection H as <- <-. cbn. lia.
  - vm_compute. reflexivity.
Defined.

(** C8 (counterexample): when the reconstruction throws for a template
    with no fragment, the estimate is 500, not 0 x 500. *)
Lemma parse_template_estimate_without_fragments :
  computePixelCountFromTiles no_canvas_browser [] = None /\
  List.length (e_tiles entry_bare) = O /\
  option_map (fun p => pixelCount (fst p)) (parse_template no_canvas_browser 0 "0 $Z" entry_bare)
    = Some 500.
Proof. vm_compute. repeat split; reflexivity. Qed.

(** C8 (amended): a stored non-negative [pixelCount] is used verbatim;
    otherwise the reconstructor's result is used and written back into
    the template's document entry; if the reconstruction throws, the
    count is 500 per fragment, a template without fragments counting as
    one fragment, and it is written back too.  In every case the
    template is parsed: the pixel count never makes the import fail. *)
Theorem parse_template_pixelCount (B : browser) (len : Z) (key : string) (v : entry)
    (tiles : list (string * image)) :
  decode_tiles (e_tiles v) [] = Some tiles ->
  exists t v',
    parse_template B len key v = Some (t, v') /\
    chunked t = tiles /\
    (forall n, e_pixelCount v = PCNum n -> 0 <= n -> pixelCount t = n /\ v' = v) /\
    (pc_trusted v = false -> forall c, computePixelCountFromTiles B tiles = Some c ->
       pixelCount t = c /\ v' = entry_set_pc c v) /\
    (pc_trusted v = false -> computePixelCountFromTiles B tiles = None ->
       pixelCount t = Z.max 1 (Z.of_nat (List.length tiles)) * 500 /\
       v' = entry_set_pc (Z.max 1 (Z.of_nat (List.length tiles)) * 500) v).
Proof.
  intros Hdec. unfold parse_template. rewrite Hdec.
  destruct (resolve_pixelCount B tiles v) as [pc v'] eqn:R.
  do 2 eexists.
  split; [reflexivity|]. split; [reflexivity|]. cbn [pixelCount].
  unfold resolve_pixelCount, pc_trusted in *.
  unfold keys in R. rewrite length_map in R.
  split; [|split].
  - intros n Hn Hnn. rewrite Hn in R. apply Z.leb_le in Hnn. rewrite Hnn in R.
    injection R as <- <-. split; reflexivity.
  - intros Hu c Hc. rewrite Hc in R.
    destruct (e_pixelCount v) as [|n| |]; try (injection R as <- <-; split; reflexivity).
    rewrite Hu in R. injection R as <- <-. split; reflexivity.
  - intros Hu Hc. rewrite Hc in R.
    assert (Hm : (if (List.length tiles =? 0)%nat then 1 else Z.of_nat (List.length tiles))
                 = Z.max 1 (Z.of_nat (List.length tiles))).
    { destruct (List.length tiles) eqn:E; cbn; lia. }
    rewrite Hm in R.
    destruct (e_pixelCount v) as [|n| |]; try (injection R as <- <-; split; reflexivity).
    rewrite Hu in R. injection R as <- <-. split; reflexivity.
Qed.

Lemma parse_template_pixelCount_witness :
  exists t v', parse_template no_canvas_browser 0 "0 $Z" entry_bare = Some (t, v') /\
               pixelCount t = Z.max 1 (Z.of_nat (List.length (@nil (string * image)))) * 500.
Proof.
  destruct (parse_template_pixelCount no_canvas_browser 0 "0 $Z" entry_bare [] eq_refl)
    as (t & v' & Hp & _ & _ & _ & H3).
  exists t, v'. split; [exact Hp|]. apply (proj1 (H3 eq_refl eq_refl)).
Defined.

(* ------------------------------------------------------------------ *)
(** ** Further properties of the operations *)

Lemma get_set_neq {V : Type} (o : list (string * V)) (k k' : string) (v : V) :
  k <> k' -> get (set o k v) k' = get o k'.
Proof.
  intros Hne. induction o as [|[k0 v0] r IH]; cbn.
  - apply String.eqb_neq in Hne. rewrite String.eqb_sym, Hne. reflexivity.
  - destruct (String.eqb k k0) eqn:E; cbn.
    + apply String.eqb_eq in E. subst k0.
      apply String.eqb_neq in Hne. rewrite String.eqb_sym, Hne. reflexivity.
    + destruct (String.eqb k' k0); [reflexivity|exact IH].
Qed.

Lemma keys_set_present {V : Type} (o : list (string * V)) (k : string) (v w : V) :
  get o k = Some w -> keys (set o k v) = keys o.
Proof.
  unfold keys. induction o as [|[k0 v0] r IH]; cbn; [discriminate|].
  destruct (String.eqb k k0); cbn; [reflexivity|]. intros H. rewrite IH by exact H. reflexivity.
Qed.

Lemma keys_set_absent {V : Type} (o : list (string * V)) (k : string) (v : V) :
  get o k = None -> keys (set o k v) = keys o ++ [k].
Proof.
  unfold keys. induction o as [|[k0 v0] r IH]; cbn; [reflexivity|].
  destruct (String.eqb k k0); cbn; [discriminate|]. intros H. rewrite IH by exact H. reflexivity.
Qed.

Lemma get_del_eq {V : Type} (o : list (string * V)) (k : string) : get (del o k) k = None.
Proof.
  unfold del. induction o as [|[k0 v0] r IH]; cbn; [reflexivity|].
  destruct (String.eqb k k0) eqn:E; cbn; [exact IH|]. rewrite E. exact IH.
Qed.

Lemma get_del_neq {V : Type} (o : list (string * V)) (k k' : string) :
  k <> k' -> get (del o k) k' = get o k'.
Proof.
  intros Hne. unfold del. induction o as [|[k0 v0] r IH]; cbn; [reflexivity|].
  destruct (String.eqb k k0) eqn:E; cbn.
  - apply String.eqb_eq in E. subst k0.
    apply String.eqb_neq in Hne. rewrite String.eqb_sym, Hne. exact IH.
  - rewrite IH. reflexivity.
Qed.

Lemma keys_del {V : Type} (o : list (string * V)) (k : string) :
  keys (del o k) = filter (fun k' => negb (String.eqb k k')) (keys o).
Proof.
  unfold del, keys. induction o as [|[k0 v0] r IH]; cbn; [reflexivity|].
  destruct (String.eqb k k0); cbn; rewrite IH; reflexivity.
Qed.

(** [update_first] changes the first element satisfying [p], if any. *)
Lemma update_first_cases (p : template -> bool) (f : template -> template) (l : list template) :
  (Forall (fun u => p u = false) l /\ update_first p f l = l) \/
  (exists l1 t l2, l = l1 ++ t :: l2 /\ Forall (fun u => p u = false) l1 /\ p t = true /\
                   update_first p f l = l1 ++ f t :: l2).
Proof.
  induction l as [|u r IH]; cbn; [left; split; [constructor|reflexivity]|].
  destruct (p u) eqn:E.
  - right. exists [], u, r. repeat split; [constructor|exact E].
  - destruct IH as [[Hf He]|(l1 & t & l2 & -> & Hl1 & Ht & He)].
    + left. split; [constructor; assumption|rewrite He; reflexivity].
    + right. exists (u :: l1), t, l2. rewrite He. repeat split; try constructor; assumption.
Qed.

(** X1: When the document has a templates map, [toggleTemplate(key, en)]
    resolves, sets the enabled flag of the entry stored under [key] (if any)
    and of the first runtime template matching [key] (if any), leaves every
    other entry, the key order and the other templates unchanged, and
    persists the document. *)
Theorem toggleTemplate_effect (m : manager) (key : string) (en : bool)
    (ts : list (string * entry)) :
  json_templates (ensureJSON m) = Some ts ->
  let m' := fst (toggleTemplate m key en) in
  snd (toggleTemplate m key en) = Ok tt /\
  (exists ts',
     json_templates m' = Some ts' /\
     get ts' key = option_map (entry_set_enabled en) (get ts key) /\
     (forall k, k <> key -> get ts' k = get ts k) /\
     keys ts' = keys ts) /\
  ((Forall (fun u => key_matches key u = false) (templatesArray m) /\
    templatesArray m' = templatesArray m) \/
   (exists l1 t l2, templatesArray m = l1 ++ t :: l2 /\
      Forall (fun u => key_matches key u = false) l1 /\ key_matches key t = true /\
      templatesArray m' = l1 ++ set_enabled en t :: l2)) /\
  persisted m' = templatesJSON m'.
Proof.
  intros Hts m'. unfold m', toggleTemplate.
  unfold json_templates in Hts.
  destruct (templatesJSON (ensureJSON m)) as [d|]; [|discriminate]. rewrite Hts.
  cbn [fst snd with_json with_array storeTemplates templatesArray templatesJSON persisted
       json_templates with_templates templates].
  rewrite ensureJSON_array.
  split; [reflexivity|]. split; [|split; [|reflexivity]].
  - destruct (get ts key) as [e|] eqn:G.
    + eexists. split; [reflexivity|]. split; [apply get_set_eq|]. split.
      * intros k Hk. apply get_set_neq. congruence.
      * eapply keys_set_present. exact G.
    + eexists. split; [reflexivity|]. split; [exact G|]. split; reflexivity.
  - exact (update_first_cases (key_matches key) (set_enabled en) (templatesArray m)).
Qed.

Lemma toggleTemplate_effect_witness :
  json_templates (ensureJSON m_one) = Some [("0 !"%string, entry1)] /\
  snd (toggleTemplate m_one "0 !" false) = Ok tt.
Proof.
  assert (H : json_templates (ensureJSON m_one) = Some [("0 !"%string, entry1)]) by (vm_compute; reflexivity).
  split; [exact H|]. exact (proj1 (toggleTemplate_effect m_one "0 !" false _ H)).
Defined.

(** X2: When the document has a templates map, [updateTemplateName(key,
    name)] resolves, renames the entry stored under [key] (if any) and the
    first runtime template matching [key] (if any), leaves every other
    entry, the key order and the other templates unchanged, and persists the
    document. *)
Theorem updateTemplateName_effect (m : manager) (key nm : string)
    (ts : list (string * entry)) :
  json_templates (ensureJSON m) = Some ts ->
  let m' := fst (updateTemplateName m key nm) in
  snd (updateTemplateName m key nm) = Ok tt /\
  (exists ts',
     json_templates m' = Some ts' /\
     get ts' key = option_map (entry_set_name nm) (get ts key) /\
     (forall k, k <> key -> get ts' k = get ts k) /\
     keys ts' = keys ts) /\
  ((Forall (fun u => key_matches key u = false) (templatesArray m) /\
    templatesArray m' = templatesArray m) \/
   (exists l1 t l2, templatesArray m = l1 ++ t :: l2 /\
      Forall (fun u => key_matches key u = false) l1 /\ key_matches key t = true /\
      templatesArray m' = l1 ++ set_displayName nm t :: l2)) /\
  persisted m' = templatesJSON m'.
Proof.
  intros Hts m'. unfold m', updateTemplateName.
  unfold json_templates in Hts.
  destruct (templatesJSON (ensureJSON m)) as [d|]; [|discriminate]. rewrite Hts.
  cbn [fst snd with_json with_array storeTemplates templatesArray templatesJSON persisted
       json_templates with_templates templates].
  rewrite ensureJSON_array.
  split; [reflexivity|]. split; [|split; [|reflexivity]].
  - destruct (get ts key) as [e|] eqn:G.
    + eexists. split; [reflexivity|]. split; [apply get_set_eq|]. split.
      * intros k Hk. apply get_set_neq. congruence.
      * eapply keys_set_present. exact G.
    + eexists. split; [reflexivity|]. split; [exact G|]. split; reflexivity.
  - exact (update_first_cases (key_matches key) (set_displayName nm) (templatesArray m)).
Qed.

Lemma updateTemplateName_effect_witness :
  json_templates (ensureJSON m_one) = Some [("0 !"%string, entry1)] /\
  snd (updateTemplateName m_one "0 !" "B") = Ok tt.
Proof.
  assert (H : json_templates (ensureJSON m_one) = Some [("0 !"%string, entry1)]) by (vm_compute; reflexivity).
  split; [exact H|]. exact (proj1 (updateTemplateName_effect m_one "0 !" "B" _ H)).
Defined.

(** X3: When the document has a templates map, [deleteTemplate(key)]
    resolves, removes [key] from the document (the other entries and their
    order are kept), removes every runtime template matching [key], and
    persists the document. *)
Theorem deleteTemplate_effect (m : manager) (key : string) (ts : list (string * entry)) :
  json_templates (ensureJSON m) = Some ts ->
  let m' := fst (deleteTemplate m key) in
  snd (deleteTemplate m key) = Ok tt /\
  (exists ts',
     json_templates m' = Some ts' /\
     get ts' key = None /\
     (forall k, k <> key -> get ts' k = get ts k) /\
     keys ts' = filter (fun k => negb (String.eqb key k)) (keys ts)) /\
  templatesArray m' = filter (fun t => negb (key_matches key t)) (templatesArray m) /\
  persisted m' = templatesJSON m'.
Proof.
  intros Hts m'. unfold m', deleteTemplate.
  unfold json_templates in Hts.
  destruct (templatesJSON (ensureJSON m)) as [d|]; [|discriminate]. rewrite Hts.
  cbn [fst snd with_json with_array storeTemplates templatesArray templatesJSON persisted
       json_templates with_templates templates].
  rewrite ensureJSON_array.
  split; [reflexivity|]. split; [|split; reflexivity].
  destruct (get ts key) as [e|] eqn:G.
  - eexists. split; [reflexivity|]. split; [apply get_del_eq|]. split.
    + intros k Hk. apply get_del_neq. congruence.
    + apply keys_del.
  - eexists. split; [reflexivity|]. split; [exact G|]. split; [reflexivity|].
    clear Hts. unfold keys. induction ts as [|[k0 v0] r IH]; cbn in *; [reflexivity|].
    destruct (String.eqb key k0); [discriminate|]. cbn. f_equal. exact (IH G).
Qed.

Lemma deleteTemplate_effect_witness :
  json_templates (ensureJSON m_one) = Some [("0 !"%string, entry1)] /\
  snd (deleteTemplate m_one "0 !") = Ok tt.
Proof.
  assert (H : json_templates (ensureJSON m_one) = Some [("0 !"%string, entry1)]) by (vm_compute; reflexivity).
  split; [exact H|]. exact (proj1 (deleteTemplate_effect m_one "0 !" _ H)).
Defined.

Lemma digit_char_props (c : ascii) :
  digit_char c -> is_ws c = false /\ Ascii.eqb " " c = false /\
                  Z.of_nat (nat_of_ascii c) - 48 < 10 /\ 0 <= Z.of_nat (nat_of_ascii c) - 48.
Proof.
  intros (k & Hk & ->).
  assert (Hn : nat_of_ascii (ascii_of_nat (48 + k)) = (48 + k)%nat)
    by (apply nat_ascii_embedding; lia).
  split; [|split; [|split]].
  - unfold is_ws. rewrite Hn.
    apply orb_false_iff. split; [apply andb_false_iff; right; apply Nat.leb_gt; lia|].
    apply Nat.eqb_neq. lia.
  - apply Ascii.eqb_neq. intros H.
    apply (f_equal nat_of_ascii) in H. rewrite Hn in H.
    change (nat_of_ascii " ") with 32%nat in H. lia.
  - rewrite Hn. lia.
  - rewrite Hn. lia.
Qed.

Lemma digits_of_chars (fuel : nat) : forall n acc,
  Forall digit_char (list_ascii_of_string acc) ->
  Forall digit_char (list_ascii_of_string (digits_of fuel n acc)).
Proof.
  induction fuel as [|f IH]; intros n acc Hacc; cbn [digits_of]; [exact Hacc|].
  assert (Hd : Forall digit_char
                 (list_ascii_of_string (String (ascii_of_nat (48 + Z.to_nat (n mod 10))) acc))).
  { cbn. constructor; [|exact Hacc].
    exists (Z.to_nat (n mod 10)). split; [|reflexivity].
    pose proof (Z.mod_pos_bound n 10). lia. }
  destruct (n <? 10); [exact Hd|]. apply IH, Hd.
Qed.

Lemma digits_of_nonempty (fuel : nat) : forall n acc,
  acc <> EmptyString -> digits_of fuel n acc <> EmptyString.
Proof.
  induction fuel as [|f IH]; intros n acc Hacc; cbn [digits_of]; [exact Hacc|].
  destruct (n <? 10); [discriminate|]. apply IH. discriminate.
Qed.

Lemma digits_of_parse (fuel : nat) : forall n,
  0 <= n < 10 ^ Z.of_nat fuel ->
  exists P, forall acc a, parse_digits (digits_of fuel n acc) a = parse_digits acc (a * P + n).
Proof.
  induction fuel as [|f IH]; intros n Hn.
  - exists 1. intros acc a. cbn in Hn. replace n with 0 by lia. cbn. f_equal. ring.
  - cbn [digits_of].
    set (d := ascii_of_nat (48 + Z.to_nat (n mod 10))).
    pose proof (Z.mod_pos_bound n 10) as Hm.
    assert (Hpd : forall acc a, parse_digits (String d acc) a = parse_digits acc (a * 10 + n mod 10)).
    { intros acc a. cbn [parse_digits]. unfold d. rewrite nat_ascii_embedding by lia.
      replace ((48 <=? Z.of_nat (48 + Z.to_nat (n mod 10))) &&
               (Z.of_nat (48 + Z.to_nat (n mod 10)) <=? 57)) with true
        by (symmetry; apply andb_true_iff; rewrite !Z.leb_le; lia).
      f_equal. lia. }
    destruct (n <? 10) eqn:E.
    + apply Z.ltb_lt in E. exists 10. intros acc a. rewrite Hpd.
      rewrite Z.mod_small by lia. reflexivity.
    + apply Z.ltb_ge in E.
      destruct (IH (n / 10)) as [P HP].
      { split; [apply Z.div_pos; lia|].
        rewrite Nat2Z.inj_succ, Z.pow_succ_r in Hn by lia.
        apply Z.div_lt_upper_bound; lia. }
      exists (P * 10). intros acc a. rewrite HP, Hpd. f_equal.
      pose proof (Z.div_mod n 10). lia.
Qed.

Lemma pow10_log2_up (n : Z) : 0 <= n -> n < 10 ^ Z.of_nat (S (Z.to_nat (Z.log2_up (n + 1)))).
Proof.
  intros Hn.
  destruct (Z.eq_dec n 0) as [->|Hn0]; [reflexivity|].
  destruct (Z.log2_up_spec (n + 1)) as [_ H2]; [lia|].
  assert (Hl : 0 <= Z.log2_up (n + 1)) by apply Z.log2_up_nonneg.
  rewrite Nat2Z.inj_succ, Z2Nat.id by lia.
  assert (H3 : 2 ^ Z.log2_up (n + 1) <= 10 ^ Z.log2_up (n + 1)).
  { apply Z.pow_le_mono_l. lia. }
  rewrite Z.pow_succ_r by lia. lia.
Qed.

Lemma trim_left_id (s : string) :
  match s with String c _ => is_ws c = false | EmptyString => True end -> trim_left s = s.
Proof. destruct s as [|c r]; cbn; [reflexivity|]. intros H. rewrite H. reflexivity. Qed.

Lemma trim_id (s : string) :
  Forall (fun c => is_ws c = false) (list_ascii_of_string s) -> trim s = s.
Proof.
  intros H. unfold trim.
  rewrite (trim_left_id s) by (destruct s; [exact I|cbn in H; inversion H; assumption]).
  assert (Hr : Forall (fun c => is_ws c = false) (rev (list_ascii_of_string s)))
    by (apply Forall_rev; exact H).
  rewrite trim_left_id.
  - rewrite list_ascii_of_string_of_list_ascii, rev_involutive, string_of_list_ascii_of_string.
    reflexivity.
  - destruct (rev (list_ascii_of_string s)) as [|c r]; cbn; [exact I|inversion Hr; assumption].
Qed.

(** [Number(String(z)) = z] for an integer [z]. *)
Lemma Number_Z_to_string (z : Z) : Number_str (Some (Z_to_string z)) = Some z.
Proof.
  unfold Number_str, Z_to_string.
  set (fuel := S (Z.to_nat (Z.log2_up (Z.abs z + 1)))).
  assert (Hgen : forall n, 0 <= n -> n <= Z.abs z ->
            parse_digits (digits_of fuel n EmptyString) 0 = Some n /\
            Forall digit_char (list_ascii_of_string (digits_of fuel n EmptyString)) /\
            digits_of fuel n EmptyString <> EmptyString).
  { intros n H0 H1. split; [|split].
    - assert (Hb : 0 <= n < 10 ^ Z.of_nat fuel).
      { split; [lia|]. pose proof (pow10_log2_up (Z.abs z) ltac:(lia)).
        unfold fuel. lia. }
      destruct (digits_of_parse fuel n Hb) as [P HP].
      rewrite HP. reflexivity.
    - apply digits_of_chars. constructor.
    - unfold fuel. cbn [digits_of]. destruct (n <? 10); [discriminate|].
      apply digits_of_nonempty. discriminate. }
  destruct (z <? 0) eqn:Ez.
  - apply Z.ltb_lt in Ez. destruct (Hgen (- z) ltac:(lia) ltac:(lia)) as (Hp & Hc & Hne).
    rewrite trim_id.
    + destruct (digits_of fuel (- z) EmptyString) as [|c r] eqn:E; [congruence|].
      cbn [option_map]. rewrite Hp. cbn. f_equal. lia.
    + cbn. constructor; [reflexivity|].
      eapply Forall_impl; [|exact Hc]. intros c Hd. apply digit_char_props, Hd.
  - apply Z.ltb_ge in Ez. destruct (Hgen z ltac:(lia) ltac:(lia)) as (Hp & Hc & Hne).
    rewrite trim_id by (eapply Forall_impl; [|exact Hc]; intros c Hd; apply digit_char_props, Hd).
    destruct (digits_of fuel z EmptyString) as [|c r] eqn:E; [congruence|].
    inversion Hc as [|c' l' Hdc _]; subst.
    destruct Hdc as (k & Hk & Hck).
    rewrite <- Hp. clear -Hk Hck. subst c.
    do 10 (destruct k as [|k]; [reflexivity|]). lia.
Qed.

Lemma has_char_Forall (c : ascii) (s : string) :
  has_char c s = false -> Forall (fun a => Ascii.eqb a c = false) (list_ascii_of_string s).
Proof.
  unfold has_char. intros H. apply Forall_forall. intros a Ha.
  destruct (Ascii.eqb a c) eqn:E; [|reflexivity].
  apply Ascii.eqb_eq in E. subst a.
  assert (existsb (Ascii.eqb c) (list_ascii_of_string s) = true)
    by (apply existsb_exists; exists c; split; [exact Ha|apply Ascii.eqb_refl]).
  congruence.
Qed.

Lemma split_on_none (c : ascii) (y : string) :
  Forall (fun a => Ascii.eqb a c = false) (list_ascii_of_string y) -> split_on c y = [y].
Proof.
  induction y as [|a r IH]; intros H; cbn; [reflexivity|].
  cbn in H. inversion H as [|a' l' Ha Hr]; subst. rewrite Ha, IH by exact Hr. reflexivity.
Qed.

Lemma split_on_app (c : ascii) (x y : string) :
  Forall (fun a => Ascii.eqb a c = false) (list_ascii_of_string x) ->
  split_on c (x ++ String c y) = x :: split_on c y.
Proof.
  induction x as [|a r IH]; intros H; cbn.
  - rewrite Ascii.eqb_refl. reflexivity.
  - cbn in H. inversion H as [|a' l' Ha Hr]; subst. rewrite Ha, IH by exact Hr. reflexivity.
Qed.

Lemma Z_to_string_no_space (z : Z) : has_char " " (Z_to_string z) = false.
Proof.
  unfold has_char, Z_to_string.
  set (fuel := S (Z.to_nat (Z.log2_up (Z.abs z + 1)))).
  assert (H : forall n, Forall digit_char (list_ascii_of_string (digits_of fuel n EmptyString)))
    by (intros n; apply digits_of_chars; constructor).
  assert (Hd : forall l, Forall digit_char l -> existsb (Ascii.eqb " ") l = false).
  { intros l Hl. induction Hl as [|a l Ha Hl IH]; cbn [existsb]; [reflexivity|].
    rewrite (proj1 (proj2 (digit_char_props a Ha))). exact IH. }
  destruct (z <? 0); [cbn [list_ascii_of_string existsb]|]; apply Hd, H.
Qed.

Lemma key_matches_key (s : Z) (a : string) (t : template) :
  has_char " " a = false ->
  key_matches (template_key s a) t = (sortID t =? s) && String.eqb (authorID t) a.
Proof.
  intros Ha. unfold key_matches, template_key.
  replace ((" " ++ a)%string) with (String " " a) by reflexivity.
  rewrite split_on_app by (apply has_char_Forall, Z_to_string_no_space).
  rewrite split_on_none by (apply has_char_Forall, Ha).
  cbn [nth_error]. rewrite Number_Z_to_string. reflexivity.
Qed.

Lemma get_In_chars (s : string) : forall k c, String.get k s = Some c -> In c (list_ascii_of_string s).
Proof.
  induction s as [|a r IH]; intros k c H; [destruct k; discriminate|].
  destruct k as [|k]; cbn in H |- *; [left; congruence|right; eapply IH; exact H].
Qed.

Lemma enc_aux_no_space (fuel : nat) : forall n radix base acc,
  has_char " " base = false -> has_char " " acc = false ->
  has_char " " (enc_aux fuel n radix base acc) = false.
Proof.
  induction fuel as [|f IH]; intros n radix base acc Hb Ha; cbn [enc_aux]; [exact Ha|].
  assert (Hc : has_char " " (String (match String.get (Z.to_nat (n mod radix)) base with
                                     | Some c => c | None => "?"%char end) acc) = false).
  { unfold has_char. cbn [list_ascii_of_string existsb]. apply orb_false_iff. split; [|exact Ha].
    destruct (String.get (Z.to_nat (n mod radix)) base) as [c|] eqn:G; [|reflexivity].
    apply get_In_chars in G. apply has_char_Forall in Hb.
    rewrite Forall_forall in Hb. rewrite Ascii.eqb_sym. exact (Hb c G). }
  destruct (n <? radix); [exact Hc|apply IH; assumption].
Qed.

Lemma numberToEncoded_no_space (n : Z) (base : string) :
  has_char " " base = false -> has_char " " (numberToEncoded n base) = false.
Proof. intros Hb. apply enc_aux_no_space; [exact Hb|reflexivity]. Qed.

(** X4: For an authorID without a space, a template matches the key
    [`${sortID} ${authorID}`] exactly when its sortID and authorID are those
    of the key. *)
Theorem key_matches_template_key (s : Z) (a : string) (t : template) :
  has_char " " a = false ->
  key_matches (template_key s a) t = true <-> sortID t = s /\ authorID t = a.
Proof.
  intros Ha. rewrite (key_matches_key s a t Ha).
  rewrite andb_true_iff, Z.eqb_eq, String.eqb_eq. reflexivity.
Qed.

Lemma key_matches_template_key_witness :
  has_char " " "!" = false /\ key_matches (template_key 2 "!") (tmpl 2 opaque_red) = true.
Proof.
  split; [reflexivity|].
  apply (proj2 (key_matches_template_key 2 "!" (tmpl 2 opaque_red) eq_refl)).
  split; reflexivity.
Defined.

(** X5: [getAllTemplates()] is empty without a templates map; otherwise it
    has one row per document key, in key order, with the entry's name,
    coordinates and enabled flag, and as pixel count the runtime template's
    count when that is non-zero and the stored count otherwise. *)
Theorem getAllTemplates_rows (m : manager) :
  (json_templates m = None -> getAllTemplates m = []) /\
  (forall ts, json_templates m = Some ts ->
     map r_key (getAllTemplates m) = keys ts /\
     Forall2 (fun kv r =>
        r_name r = e_name (snd kv) /\ r_coords r = e_coords (snd kv) /\
        r_enabled r = e_enabled (snd kv) /\
        (forall n, e_pixelCount (snd kv) = PCNum n ->
           (forall u, In u (templatesArray m) ->
              template_key (sortID u) (authorID u) = fst kv -> pixelCount u = 0) ->
           r_pixelCount r = Some n) /\
        (forall u, find (fun u => String.eqb (template_key (sortID u) (authorID u)) (fst kv))
                        (templatesArray m) = Some u ->
           pixelCount u <> 0 -> r_pixelCount r = Some (pixelCount u)))
       ts (getAllTemplates m)).
Proof.
  unfold getAllTemplates, json_templates.
  destruct (templatesJSON m) as [d|]; [|split; [reflexivity|discriminate]].
  destruct (templates d) as [ts0|]; [|split; [reflexivity|discriminate]].
  split; [discriminate|]. intros ts H. injection H as <-.
  split.
  - rewrite map_map. reflexivity.
  - induction ts0 as [|[k e] r IH]; cbn [map]; constructor; [|exact IH].
    cbn [r_name r_coords r_enabled r_pixelCount fst snd].
    split; [reflexivity|]. split; [reflexivity|]. split; [reflexivity|]. split.
    + intros n Hn Hz. unfold row_pixelCount. rewrite Hn.
      destruct (find _ (templatesArray m)) as [u|] eqn:F; [|reflexivity].
      apply find_some in F as [Hin Heq]. apply String.eqb_eq in Heq.
      rewrite (Hz u Hin Heq). reflexivity.
    + intros u F Hu. unfold row_pixelCount. rewrite F.
      apply Z.eqb_neq in Hu. rewrite Hu. reflexivity.
Qed.

Lemma getAllTemplates_rows_witness :
  json_templates m_one = Some [("0 !"%string, entry1)] /\
  map r_key (getAllTemplates m_one) = ["0 !"%string].
Proof.
  assert (H : json_templates m_one = Some [("0 !"%string, entry1)]) by (vm_compute; reflexivity).
  split; [exact H|]. exact (proj1 (proj2 (getAllTemplates_rows m_one) _ H)).
Defined.

Lemma update_first_map (p : template -> bool) (f : template -> template) (l : list template) :
  (List.length (filter p l) <= 1)%nat ->
  update_first p f l = map (fun t => if p t then f t else t) l.
Proof.
  induction l as [|u r IH]; intros H; cbn in *; [reflexivity|].
  destruct (p u) eqn:E.
  - cbn in H. f_equal. assert (Hr : filter p r = []) by (destruct (filter p r); [reflexivity|cbn in H; lia]).
    clear -Hr. induction r as [|v r IH]; cbn in *; [reflexivity|].
    destruct (p v); [discriminate|]. f_equal. apply IH, Hr.
  - f_equal. apply IH, H.
Qed.

Lemma in_keys_get {V : Type} (o : list (string * V)) (k : string) :
  In k (keys o) <-> get o k <> None.
Proof.
  unfold keys. induction o as [|[k0 v0] r IH]; cbn; [tauto|].
  destruct (String.eqb k k0) eqn:E.
  - apply String.eqb_eq in E. subst. split; [discriminate|tauto].
  - apply String.eqb_neq in E. rewrite <- IH. split; [intros [H|H]; [congruence|exact H]|tauto].
Qed.

Lemma set_map_update {V : Type} (o : list (string * V)) (k : string) (f : V -> V) (v : V) :
  NoDup (keys o) -> get o k = Some v ->
  set o k (f v) = map (fun kv => if String.eqb k (fst kv) then (fst kv, f (snd kv)) else kv) o.
Proof.
  induction o as [|[k0 v0] r IH]; intros Hnd Hg; cbn in *; [discriminate|].
  inversion Hnd as [|k0' l' Hnin Hnd']; subst.
  destruct (String.eqb k k0) eqn:E.
  - injection Hg as ->. f_equal. apply String.eqb_eq in E. subst k0.
    clear -Hnin. induction r as [|[k1 v1] r IH]; cbn in *; [reflexivity|].
    destruct (String.eqb k k1) eqn:E1; [apply String.eqb_eq in E1; subst; tauto|].
    f_equal. apply IH. tauto.
  - f_equal. apply IH; assumption.
Qed.

Lemma key_matches_set_enabled (k : string) (b : bool) (t : template) :
  key_matches k (set_enabled b t) = key_matches k t.
Proof. reflexivity. Qed.

Lemma toggleTemplate_some (m : manager) (key : string) (en : bool) (ts : list (string * entry)) :
  json_templates m = Some ts ->
  snd (toggleTemplate m key en) = Ok tt /\
  json_templates (fst (toggleTemplate m key en))
    = Some (match get ts key with Some e => set ts key (entry_set_enabled en e) | None => ts end) /\
  templatesArray (fst (toggleTemplate m key en))
    = update_first (key_matches key) (set_enabled en) (templatesArray m) /\
  persisted (fst (toggleTemplate m key en)) = templatesJSON (fst (toggleTemplate m key en)).
Proof.
  unfold json_templates, toggleTemplate, ensureJSON. intros Hts.
  destruct (templatesJSON m) as [d|] eqn:E; [|discriminate]. rewrite E, Hts.
  repeat split.
Qed.

Section SetAll.
Variables (en : bool) (ts : list (string * entry)) (arr : list template).

Hypothesis Hnd : NoDup (keys ts).
Hypothesis Huniq : forall k, In k (keys ts) -> (List.length (filter (key_matches k) arr) <= 1)%nat.

Lemma keys_map_F (done : list string) : keys (map (F_done en done) ts) = keys ts.
Proof.
  unfold keys. rewrite map_map. apply map_ext. intros [k e]. unfold F_done. cbn.
  destruct (existsb _ _); reflexivity.
Qed.

Lemma filter_map_G (done : list string) (k : string) :
  filter (key_matches k) (map (G_done en done) arr) = map (G_done en done) (filter (key_matches k) arr).
Proof.
  clear Huniq. induction arr as [|u r IH]; cbn; [reflexivity|].
  assert (Hk : key_matches k (G_done en done u) = key_matches k u)
    by (unfold G_done; destruct (existsb _ _); reflexivity).
  rewrite Hk. destruct (key_matches k u); cbn; [f_equal|]; exact IH.
Qed.

Lemma toggle_all_spec (ks : list string) : forall m done,
  json_templates m = Some (map (F_done en done) ts) ->
  templatesArray m = map (G_done en done) arr ->
  (forall k, In k ks -> In k (keys ts)) ->
  snd (toggle_all m ks en) = Ok tt /\
  json_templates (fst (toggle_all m ks en)) = Some (map (F_done en (done ++ ks)) ts) /\
  templatesArray (fst (toggle_all m ks en)) = map (G_done en (done ++ ks)) arr /\
  (ks <> [] -> persisted (fst (toggle_all m ks en)) = templatesJSON (fst (toggle_all m ks en))).
Proof.
  induction ks as [|k r IH]; intros m done Hj Ha Hks.
  - cbn. rewrite app_nil_r. repeat split; assumption || (intros H; contradiction).
  - cbn [toggle_all].
    destruct (toggleTemplate_some m k en _ Hj) as (Hr & Hj' & Ha' & Hp').
    destruct (toggleTemplate m k en) as [m1 r1] eqn:T. cbn [fst snd] in *. subst r1.
    assert (Hin : In k (keys (map (F_done en done) ts))) by (rewrite keys_map_F; apply Hks; left; reflexivity).
    apply in_keys_get in Hin.
    destruct (get (map (F_done en done) ts) k) as [e|] eqn:G; [|contradiction].
    rewrite set_map_update in Hj' by (rewrite ?keys_map_F; assumption).
    assert (HJ : json_templates m1 = Some (map (F_done en (done ++ [k])) ts)).
    { rewrite Hj', map_map. f_equal. apply map_ext. intros [k0 e0]. unfold F_done. cbn [fst snd].
      rewrite existsb_app. cbn [existsb]. rewrite orb_false_r.
      destruct (existsb (String.eqb k0) done); cbn; destruct (String.eqb k k0) eqn:E;
        rewrite ?(String.eqb_sym k0 k), ?E; cbn; reflexivity. }
    assert (HA : templatesArray m1 = map (G_done en (done ++ [k])) arr).
    { rewrite Ha', Ha. rewrite update_first_map.
      - rewrite map_map. apply map_ext. intros u. unfold G_done.
        rewrite existsb_app. cbn [existsb]. rewrite orb_false_r.
        destruct (existsb (fun k0 => key_matches k0 u) done); cbn;
          rewrite ?key_matches_set_enabled; destruct (key_matches k u); reflexivity.
      - rewrite filter_map_G, length_map. apply Huniq, Hks. left. reflexivity. }
    destruct (IH m1 (done ++ [k]) HJ HA) as (R1 & R2 & R3 & R4).
    { intros k' Hk'. apply Hks. right. exact Hk'. }
    rewrite <- app_assoc in R2, R3. cbn [app] in R2, R3.
    repeat split; [exact R1|exact R2|exact R3|].
    intros _. destruct r as [|k' r'].
    + cbn in *. exact Hp'.
    + apply R4. discriminate.
Qed.

End SetAll.

(** X6: Without a templates map [setAllTemplatesEnabled(en)] changes
    nothing. Otherwise, with distinct keys each matching at most one runtime
    template, it resolves, sets the enabled flag of every entry and of every
    runtime template that matches a key, leaves the other templates
    unchanged, and persists the document when there is a key. *)
Theorem setAllTemplatesEnabled_effect (m : manager) (en : bool) :
  (json_templates m = None -> setAllTemplatesEnabled m en = (m, Ok tt)) /\
  (forall ts,
     json_templates m = Some ts -> NoDup (keys ts) ->
     (forall k, In k (keys ts) -> (List.length (filter (key_matches k) (templatesArray m)) <= 1)%nat) ->
     let m' := fst (setAllTemplatesEnabled m en) in
     snd (setAllTemplatesEnabled m en) = Ok tt /\
     json_templates m' = Some (map (fun kv => (fst kv, entry_set_enabled en (snd kv))) ts) /\
     templatesArray m' =
       map (fun t => if existsb (fun k => key_matches k t) (keys ts) then set_enabled en t else t)
           (templatesArray m) /\
     (ts <> [] -> persisted m' = templatesJSON m')).
Proof.
  split.
  - intros H. unfold setAllTemplatesEnabled.
    unfold json_templates in H. unfold getAllTemplates.
    destruct (templatesJSON m) as [d|]; [rewrite H|]; reflexivity.
  - intros ts Hj Hnd Hu m'.
    assert (Hk : map r_key (getAllTemplates m) = keys ts).
    { unfold getAllTemplates. unfold json_templates in Hj.
      destruct (templatesJSON m); [|discriminate]. rewrite Hj, map_map. reflexivity. }
    unfold m', setAllTemplatesEnabled. rewrite Hk.
    destruct (toggle_all_spec en ts (templatesArray m) Hnd Hu (keys ts) m [])
      as (R1 & R2 & R3 & R4).
    + rewrite Hj. f_equal. rewrite <- (map_id ts) at 1. apply map_ext. intros [k e]. reflexivity.
    + rewrite <- (map_id (templatesArray m)) at 1. apply map_ext. reflexivity.
    + tauto.
    + cbn [app] in R2, R3. split; [exact R1|]. split; [|split].
      * rewrite R2. f_equal. apply map_ext_in. intros [k e] Hin. unfold F_done. cbn [fst snd].
        replace (existsb (String.eqb k) (keys ts)) with true; [reflexivity|].
        symmetry. apply existsb_exists. exists k. split; [|apply String.eqb_refl].
        unfold keys. apply in_map_iff. exists (k, e). split; [reflexivity|exact Hin].
      * rewrite R3. reflexivity.
      * intros Hne. apply R4. destruct ts; [contradiction|discriminate].
Qed.

Lemma setAllTemplatesEnabled_effect_witness :
  json_templates m_one = Some [("0 !"%string, entry1)] /\
  snd (setAllTemplatesEnabled m_one false) = Ok tt.
Proof.
  assert (H : json_templates m_one = Some [("0 !"%string, entry1)]) by (vm_compute; reflexivity).
  split; [exact H|].
  refine (proj1 (proj2 (setAllTemplatesEnabled_effect m_one false) _ H _ _)).
  - repeat constructor. intros [].
  - intros k [<-|[]]. vm_compute. lia.
Defined.

(** X7: With a decoded image and a templates map, [createTemplate] stores
    under the key [`${n} ${encoded userID}`], n the number of entries, an
    entry with the name, the joined coordinates, enabled true, the fragments
    and the pixel count; it appends the corresponding Template instance,
    keeps the other entries, appends the key to the key order unless it was
    present, posts the two status messages and persists the document. *)
Theorem createTemplate_stores_entry (m : manager) (nm : string) (cs : list num)
    (ch : chunk_result) (ts : list (string * entry)) :
  json_templates (ensureJSON m) = Some ts ->
  let key := template_key (Z.of_nat (List.length ts))
               (numberToEncoded (match userID m with Some u => u | None => 0 end) (encodingBase m)) in
  let m' := fst (createTemplate m nm cs (Some ch)) in
  (exists ts',
     json_templates m' = Some ts' /\
     get ts' key = Some {| e_name := Some nm; e_coords := Some (join ", " (map num_to_string cs));
                           e_enabled := Some true; e_tiles := ch_buffers ch;
                           e_pixelCount := PCNum (ch_pixelCount ch) |} /\
     (forall k, k <> key -> get ts' k = get ts k) /\
     (get ts key = None -> keys ts' = keys ts ++ [key]) /\
     (get ts key <> None -> keys ts' = keys ts)) /\
  templatesArray m' = templatesArray m ++
    [{| displayName := nm; sortID := Z.of_nat (List.length ts);
        authorID := numberToEncoded (match userID m with Some u => u | None => 0 end) (encodingBase m);
        enabled := true; coords := Some cs; chunked := ch_tiles ch;
        pixelCount := ch_pixelCount ch |}] /\
  status m' = status m ++ [MsgCreating cs; MsgCreated cs (ch_pixelCount ch)] /\
  persisted m' = templatesJSON m'.
Proof.
  intros Hts key m'. unfold m', createTemplate.
  assert (Hs : status (ensureJSON m) = status m) by (unfold ensureJSON; destruct (templatesJSON m); reflexivity).
  assert (Hu : userID (ensureJSON m) = userID m) by (unfold ensureJSON; destruct (templatesJSON m); reflexivity).
  assert (Hb : encodingBase (ensureJSON m) = encodingBase m) by (unfold ensureJSON; destruct (templatesJSON m); reflexivity).
  unfold json_templates in Hts.
  destruct (templatesJSON (ensureJSON m)) as [d|] eqn:E; [|discriminate].
  cbn [add_status templatesJSON]. rewrite E, Hts.
  cbn [fst storeTemplates with_array with_json add_status templatesJSON persisted status
       json_templates with_templates templates userID encodingBase].
  rewrite Hs, Hu, Hb, <- app_assoc. fold key.
  replace (Z.of_nat (List.length (keys ts))) with (Z.of_nat (List.length ts))
    by (unfold keys; rewrite length_map; reflexivity).
  fold key. cbn [templatesArray with_array with_json add_status storeTemplates]. rewrite ?ensureJSON_array.
  split; [|split; [|split]; reflexivity].
  eexists. split; [reflexivity|]. split; [apply get_set_eq|]. split; [|split].
  - intros k Hk. apply get_set_neq. congruence.
  - apply keys_set_absent.
  - intros H. destruct (get ts key) as [e|] eqn:G; [|contradiction].
    eapply keys_set_present. exact G.
Qed.

Lemma createTemplate_stores_entry_witness :
  json_templates (ensureJSON m_one) = Some [("0 !"%string, entry1)] /\
  status (fst (createTemplate m_one "B" zero4 (Some chunk1))) =
    status m_one ++ [MsgCreating zero4; MsgCreated zero4 1].
Proof.
  assert (H : json_templates (ensureJSON m_one) = Some [("0 !"%string, entry1)]) by (vm_compute; reflexivity).
  split; [exact H|].
  exact (proj1 (proj2 (proj2 (createTemplate_stores_entry m_one "B" zero4 chunk1 _ H)))).
Defined.

(** X8: When the image does not decode, [createTemplate] rejects after
    posting the 'Creating' message; the runtime array is unchanged and
    nothing is persisted. *)
Theorem createTemplate_decode_failure (m : manager) (nm : string) (cs : list num) :
  let m' := fst (createTemplate m nm cs None) in
  (exists err, snd (createTemplate m nm cs None) = Throw err) /\
  templatesArray m' = templatesArray m /\
  templatesJSON m' = templatesJSON (ensureJSON m) /\
  persisted m' = persisted m /\
  status m' = status m ++ [MsgCreating cs].
Proof.
  intros m'. unfold m', createTemplate.
  assert (Hs : status (ensureJSON m) = status m) by (unfold ensureJSON; destruct (templatesJSON m); reflexivity).
  assert (Hp : persisted (ensureJSON m) = persisted m) by (unfold ensureJSON; destruct (templatesJSON m); reflexivity).
  cbn [add_status templatesJSON].
  destruct (templatesJSON (ensureJSON m)) as [d|] eqn:E;
    [destruct (templates d)|];
    cbn; rewrite ?Hs, ?Hp, ?ensureJSON_array, ?E; repeat split; eexists; reflexivity.
Qed.

(** X9: Deleting the key of a template just created (with an encoding
    alphabet without spaces) resolves, removes its entry while keeping every
    other entry as it was before the creation, and removes it from the
    runtime array together with every older template of the same sortID and
    authorID. *)
Theorem createTemplate_then_delete (m : manager) (nm : string) (cs : list num)
    (ch : chunk_result) (ts : list (string * entry)) :
  json_templates (ensureJSON m) = Some ts ->
  has_char " " (encodingBase m) = false ->
  let m1 := fst (createTemplate m nm cs (Some ch)) in
  exists t,
    templatesArray m1 = templatesArray m ++ [t] /\
    let key := template_key (sortID t) (authorID t) in
    let m2 := fst (deleteTemplate m1 key) in
    snd (deleteTemplate m1 key) = Ok tt /\
    templatesArray m2 =
      filter (fun u => negb ((sortID u =? sortID t) && String.eqb (authorID u) (authorID t)))
             (templatesArray m) /\
    exists ts2, json_templates m2 = Some ts2 /\ get ts2 key = None /\
      (forall k, k <> key -> get ts2 k = get ts k).
Proof.
  intros Hts Hsp m1. unfold m1, createTemplate.
  assert (Hu : userID (ensureJSON m) = userID m) by (unfold ensureJSON; destruct (templatesJSON m); reflexivity).
  assert (Hb : encodingBase (ensureJSON m) = encodingBase m) by (unfold ensureJSON; destruct (templatesJSON m); reflexivity).
  unfold json_templates in Hts.
  destruct (templatesJSON (ensureJSON m)) as [d|] eqn:E; [|discriminate].
  cbn [add_status templatesJSON]. rewrite E, Hts.
  cbn [fst storeTemplates with_array with_json add_status templatesJSON persisted status
       json_templates with_templates templates userID encodingBase templatesArray].
  rewrite ensureJSON_array, Hu, Hb.
  eexists. split; [reflexivity|]. cbn [sortID authorID].
  set (aid := numberToEncoded (match userID m with Some u => u | None => 0 end) (encodingBase m)).
  set (key := template_key (Z.of_nat (List.length (keys ts))) aid).
  set (e := {| e_name := _ |}).
  assert (Ha : has_char " " aid = false) by (apply numberToEncoded_no_space, Hsp).
  match goal with |- context [deleteTemplate ?M _] => set (M1 := M) end.
  assert (HJ : templatesJSON M1 = Some (with_templates d (set ts key e))) by reflexivity.
  unfold deleteTemplate, ensureJSON. rewrite HJ.
  cbn [templates with_templates]. rewrite ?HJ. cbn [templates with_templates]. rewrite get_set_eq.
  unfold M1.
  cbn [fst snd storeTemplates with_array with_json templatesJSON templatesArray json_templates
       with_templates templates add_status].
  split; [reflexivity|]. split.
  - unfold key. rewrite filter_app. cbn [filter]. rewrite (key_matches_key _ _ _ Ha).
    cbn [sortID authorID]. rewrite Z.eqb_refl, String.eqb_refl. cbn. rewrite app_nil_r.
    apply filter_ext. intros u. rewrite (key_matches_key _ _ _ Ha). reflexivity.
  - eexists. split; [reflexivity|]. split.
    + apply get_del_eq.
    + intros k Hk. rewrite get_del_neq by congruence. apply get_set_neq. congruence.
Qed.

Lemma createTemplate_then_delete_witness :
  json_templates (ensureJSON m_one) = Some [("0 !"%string, entry1)] /\
  has_char " " (encodingBase m_one) = false /\
  exists t, templatesArray (fst (createTemplate m_one "B" zero4 (Some chunk1)))
              = templatesArray m_one ++ [t].
Proof.
  assert (H : json_templates (ensureJSON m_one) = Some [("0 !"%string, entry1)]) by (vm_compute; reflexivity).
  assert (Hs : has_char " " (encodingBase m_one) = false) by (vm_compute; reflexivity).
  split; [exact H|]. split; [exact Hs|].
  destruct (createTemplate_then_delete m_one "B" zero4 chunk1 _ H Hs) as (t & Ht & _).
  exists t. exact Ht.
Defined.

Lemma get_merge_absent (new : list (string * entry)) : forall cur k,
  get (merge_absent cur new) k = match get cur k with Some v => Some v | None => get new k end.
Proof.
  induction new as [|[k0 v0] r IH]; intros cur k; cbn [merge_absent get].
  - destruct (get cur k); reflexivity.
  - destruct (get cur k0) eqn:G0.
    + rewrite IH. destruct (String.eqb k k0) eqn:E; [|reflexivity].
      apply String.eqb_eq in E. subst. rewrite G0. reflexivity.
    + rewrite IH. destruct (String.eqb k k0) eqn:E.
      * apply String.eqb_eq in E. subst. rewrite get_set_eq, G0. reflexivity.
      * rewrite get_set_neq by (apply String.eqb_neq in E; congruence). reflexivity.
Qed.

Lemma parse_loop_app (B : browser) (ts : list (string * entry)) : forall arr,
  exists nw, fst (parse_loop B arr ts) = arr ++ nw.
Proof.
  induction ts as [|[k v] r IH]; intros arr; cbn [parse_loop].
  - exists []. rewrite app_nil_r. reflexivity.
  - destruct (parse_template B (Z.of_nat (List.length arr)) k v) as [[t v']|].
    + destruct (IH (arr ++ [t])) as [nw Hnw].
      destruct (parse_loop B (arr ++ [t]) r) as [arr' r'] eqn:P. cbn in Hnw |- *.
      exists (t :: nw). rewrite Hnw, <- app_assoc. reflexivity.
    + exists []. rewrite app_nil_r. reflexivity.
Qed.

Lemma parse_loop_keys (B : browser) (ts : list (string * entry)) : forall arr,
  keys (snd (parse_loop B arr ts)) = keys ts.
Proof.
  induction ts as [|[k v] r IH]; intros arr; cbn [parse_loop]; [reflexivity|].
  destruct (parse_template B (Z.of_nat (List.length arr)) k v) as [[t v']|]; [|reflexivity].
  specialize (IH (arr ++ [t])).
  destruct (parse_loop B (arr ++ [t]) r) as [arr' r'] eqn:P. cbn in IH |- *.
  unfold keys in IH |- *. cbn. rewrite IH. reflexivity.
Qed.

Lemma parse_template_some (B : browser) (len : Z) (k : string) (v : entry) :
  decode_tiles (e_tiles v) [] <> None -> parse_template B len k v <> None.
Proof.
  unfold parse_template. intros H.
  destruct (decode_tiles (e_tiles v) []); [|contradiction].
  destruct (resolve_pixelCount B l v). discriminate.
Qed.

Lemma parse_loop_length (B : browser) (ts : list (string * entry)) : forall arr,
  Forall (fun kv => decode_tiles (e_tiles (snd kv)) [] <> None) ts ->
  List.length (fst (parse_loop B arr ts)) = (List.length arr + List.length ts)%nat.
Proof.
  induction ts as [|[k v] r IH]; intros arr Hd; cbn [parse_loop]; [cbn; lia|].
  inversion Hd as [|kv l Hkv Hr]; subst.
  destruct (parse_template B (Z.of_nat (List.length arr)) k v) as [[t v']|] eqn:P;
    [|exfalso; exact (parse_template_some B _ k v Hkv P)].
  specialize (IH (arr ++ [t]) Hr).
  destruct (parse_loop B (arr ++ [t]) r) as [arr' r'] eqn:P'. cbn in IH |- *.
  rewrite IH, length_app. cbn. lia.
Qed.

Lemma parseBlueMarble_some (B : browser) (m : manager) (d : doc) (ts : list (string * entry)) :
  templates d = Some ts ->
  parseBlueMarble B m d =
    (with_array m (fst (parse_loop B (templatesArray m) ts)),
     with_templates d (snd (parse_loop B (templatesArray m) ts))).
Proof.
  intros H. unfold parseBlueMarble. rewrite H.
  destruct (parse_loop B (templatesArray m) ts). reflexivity.
Qed.

Lemma importJSON_accepted (B : browser) (m : manager) (d0 : doc) (ts : list (string * entry)) :
  templates d0 = Some ts -> import_accepted m d0 ->
  exists d, templates d = Some ts /\
  importJSON B m (Some d0) =
    match templatesJSON m with
    | Some cur =>
        match templates cur with
        | None => if (List.length ts =? 0)%nat then
                    let '(m1, _) := parseBlueMarble B m d in (m1, Ok tt)
                  else (m, Throw "TypeError: templates is undefined")
        | Some cts =>
            let '(m1, d') := parseBlueMarble B m d in
            let ts' := match templates d' with Some x => x | None => ts end in
            (with_json m1 (Some (with_templates cur (merge_absent cts ts'))), Ok tt)
        end
    | None => let '(m1, d') := parseBlueMarble B m d in (with_json m1 (Some d'), Ok tt)
    end.
Proof.
  intros Hts Hacc. unfold importJSON. rewrite Hts.
  destruct (whoami_falsy d0) eqn:Hf; cbn [andb].
  - exists (set_whoami d0 (remove_ws (name m))). split; [exact Hts|].
    cbn [whoami set_whoami templates].
    replace (existsb (String.eqb (remove_ws (name m))) (accepted_whoami m)) with true.
    2:{ symmetry. apply existsb_exists. exists (remove_ws (name m)).
        split; [cbn; tauto|apply String.eqb_refl]. }
    cbn [negb]. rewrite Hts. destruct (templatesJSON m); reflexivity.
  - exists d0. split; [exact Hts|].
    destruct Hacc as [Hacc|(w & Hw & Hin)]; [congruence|].
    rewrite Hw.
    replace (existsb (String.eqb w) (accepted_whoami m)) with true.
    2:{ symmetry. apply existsb_exists. exists w. split; [exact Hin|apply String.eqb_refl]. }
    cbn [negb]. rewrite Hts. destruct (templatesJSON m); reflexivity.
Qed.

(** X10: Importing an accepted document into a manager whose document has a
    templates map resolves; existing entries are kept unchanged and imported
    keys are added only where absent, so the merged map holds exactly the
    old keys and the imported ones, and the document's other members are
    kept. *)
Theorem importJSON_merge_keeps_existing (B : browser) (m : manager) (d : doc)
    (ts : list (string * entry)) (cur : doc) (cts : list (string * entry)) :
  templates d = Some ts -> import_accepted m d ->
  templatesJSON m = Some cur -> templates cur = Some cts ->
  let r := importJSON B m (Some d) in
  snd r = Ok tt /\
  exists ts2, templatesJSON (fst r) = Some (with_templates cur ts2) /\
    (forall k v, get cts k = Some v -> get ts2 k = Some v) /\
    (forall k, get ts2 k <> None <-> (get cts k <> None \/ In k (keys ts))).
Proof.
  intros Hts Hacc Hcur Hcts r. unfold r.
  destruct (importJSON_accepted B m d ts Hts Hacc) as (d' & Hd' & ->).
  rewrite Hcur, Hcts, (parseBlueMarble_some B m d' ts Hd').
  cbn [snd fst templatesJSON with_json templates with_templates].
  split; [reflexivity|]. eexists. split; [reflexivity|]. split.
  - intros k v Hk. rewrite get_merge_absent, Hk. reflexivity.
  - intros k. rewrite get_merge_absent.
    destruct (get cts k) as [v|] eqn:G.
    + split; [intros _; left; discriminate|intros _; discriminate].
    + rewrite <- in_keys_get, parse_loop_keys. split; [intros H; right; exact H|].
      intros [H|H]; [contradiction|exact H].
Qed.

Lemma importJSON_merge_keeps_existing_witness :
  templatesJSON m_one = Some (with_templates (createJSON m0) [("0 !"%string, entry1)]) /\
  snd (importJSON std_browser m_one (Some doc1)) = Ok tt.
Proof.
  assert (H : templatesJSON m_one = Some (with_templates (createJSON m0) [("0 !"%string, entry1)]))
    by (vm_compute; reflexivity).
  split; [exact H|].
  refine (proj1 (importJSON_merge_keeps_existing std_browser m_one doc1 _ _ _ eq_refl _ H eq_refl)).
  right. exists "BlueMarble"%string. split; [reflexivity|]. cbn. tauto.
Defined.

(** X11: [importJSON] never removes or reorders the loaded templates: the
    runtime array after the call is the array before it followed by the new
    ones. *)
Theorem importJSON_appends_only (B : browser) (m : manager) (json : option doc) :
  exists nw, templatesArray (fst (importJSON B m json)) = templatesArray m ++ nw.
Proof.
  unfold importJSON. destruct json as [d0|]; [|exists []; rewrite app_nil_r; reflexivity].
  match goal with |- context [if negb ?b then _ else _] => destruct b end;
    cbn [negb]; [|exists []; rewrite app_nil_r; reflexivity].
  match goal with |- context [templates ?D] => set (d := D) end.
  unfold parseBlueMarble.
  destruct (templatesJSON m) as [c|];
    [destruct (templates d) as [ts|]; [destruct (templates c) as [cts|]; [|destruct (List.length ts =? 0)%nat]|]
    |destruct (templates d) as [ts|]].
  all: try (exists []; rewrite app_nil_r; reflexivity).
  all: try (destruct (parse_loop B (templatesArray m) ts) as [arr' ts'] eqn:P;
            destruct (parse_loop_app B ts (templatesArray m)) as [nw Hnw];
            rewrite P in Hnw; exists nw; exact Hnw).
Qed.

(** X12: When an accepted import resolves and the fragments of every entry
    decode, exactly one Template instance per document entry is appended to
    the runtime array. *)
Theorem importJSON_pushes_every_entry (B : browser) (m : manager) (d : doc)
    (ts : list (string * entry)) :
  templates d = Some ts -> import_accepted m d ->
  Forall (fun kv => decode_tiles (e_tiles (snd kv)) [] <> None) ts ->
  snd (importJSON B m (Some d)) = Ok tt ->
  List.length (templatesArray (fst (importJSON B m (Some d)))) =
    (List.length (templatesArray m) + List.length ts)%nat.
Proof.
  intros Hts Hacc Hdec.
  destruct (importJSON_accepted B m d ts Hts Hacc) as (d' & Hd' & ->).
  rewrite (parseBlueMarble_some B m d' ts Hd').
  destruct (templatesJSON m) as [cur|]; [destruct (templates cur) as [cts|]; [|destruct (List.length ts =? 0)%nat eqn:L]|].
  all: cbn [fst snd templatesArray with_json with_array]; intros H; try discriminate.
  all: apply parse_loop_length; exact Hdec.
Qed.

Lemma importJSON_pushes_every_entry_witness :
  snd (importJSON std_browser m0 (Some doc1)) = Ok tt /\
  List.length (templatesArray (fst (importJSON std_browser m0 (Some doc1)))) = 1%nat.
Proof.
  assert (H : snd (importJSON std_browser m0 (Some doc1)) = Ok tt) by (vm_compute; reflexivity).
  split; [exact H|].
  refine (importJSON_pushes_every_entry std_browser m0 doc1 _ eq_refl _ _ H).
  - right. exists "BlueMarble"%string. split; [reflexivity|]. cbn. tauto.
  - constructor; [vm_compute; discriminate|constructor].
Defined.

(** X13: [importJSON] rejects only when the current document has no
    templates map and the accepted imported document has a non-empty one;
    the manager is then left unchanged. *)
Theorem importJSON_throws_only_without_templates (B : browser) (m : manager)
    (json : option doc) (e : string) :
  snd (importJSON B m json) = Throw e ->
  fst (importJSON B m json) = m /\
  exists d cur ts, json = Some d /\ templatesJSON m = Some cur /\ templates cur = None /\
    templates d = Some ts /\ ts <> [].
Proof.
  unfold importJSON. destruct json as [d0|]; [|discriminate].
  match goal with |- context [if negb ?b then _ else _] => destruct b end;
    cbn [negb]; [|discriminate].
  match goal with |- context [templates ?D] => set (d := D) end.
  assert (Hd : templates d = templates d0)
    by (unfold d; destruct (whoami_falsy d0 && _); reflexivity).
  unfold parseBlueMarble.
  destruct (templatesJSON m) as [c|] eqn:Hc.
  2:{ destruct (templates d); [destruct (parse_loop B (templatesArray m) l)|]; discriminate. }
  destruct (templates d) as [ts|] eqn:Hts.
  2:{ intros H. discriminate. }
  destruct (templates c) as [cts|] eqn:Hcts.
  { destruct (parse_loop B (templatesArray m) ts); discriminate. }
  destruct (List.length ts =? 0)%nat eqn:L.
  { destruct (parse_loop B (templatesArray m) ts); discriminate. }
  intros _. split; [reflexivity|].
  exists d0, c, ts. split; [reflexivity|]. split; [reflexivity|]. split; [exact Hcts|]. split; [congruence|].
  intros ->. discriminate.
Qed.

Lemma importJSON_throws_only_without_templates_witness :
  snd (importJSON std_browser m_no_map (Some doc1)) = Throw "TypeError: templates is undefined" /\
  fst (importJSON std_browser m_no_map (Some doc1)) = m_no_map.
Proof.
  assert (H : snd (importJSON std_browser m_no_map (Some doc1))
              = Throw "TypeError: templates is undefined") by (vm_compute; reflexivity).
  split; [exact H|].
  exact (proj1 (importJSON_throws_only_without_templates std_browser m_no_map (Some doc1) _ H)).
Defined.

Lemma insert_by_sortID_perm (t : template) (l : list template) :
  Permutation (insert_by_sortID t l) (t :: l).
Proof.
  induction l as [|u r IH]; cbn; [reflexivity|].
  destruct (sortID t <=? sortID u); [reflexivity|].
  rewrite IH. apply perm_swap.
Qed.

Lemma sort_by_sortID_perm (l : list template) : Permutation (sort_by_sortID l) l.
Proof.
  induction l as [|u r IH]; cbn; [reflexivity|].
  rewrite insert_by_sortID_perm, IH. reflexivity.
Qed.

Lemma sort_by_sortID_id (l : list template) :
  StronglySorted sortID_le l -> sort_by_sortID l = l.
Proof.
  induction l as [|u r IH]; intros H; cbn; [reflexivity|].
  apply StronglySorted_inv in H as [Hr Hu]. rewrite (IH Hr).
  destruct r as [|v r']; [reflexivity|].
  inversion Hu as [|x y Huv Hrest]; subst. unfold sortID_le in Huv.
  cbn. destruct (sortID u <=? sortID v) eqn:E; [reflexivity|]. apply Z.leb_gt in E. lia.
Qed.

Lemma drawTemplateOnTile_fields (B : browser) (m : manager) (b : blob) (tx ty : Z) :
  let m' := fst (drawTemplateOnTile B m b tx ty) in
  templatesArray m' = (if templatesShouldBeDrawn m then sort_by_sortID (templatesArray m)
                       else templatesArray m) /\
  templatesJSON m' = templatesJSON m /\ persisted m' = persisted m /\
  templatesShouldBeDrawn m' = templatesShouldBeDrawn m.
Proof.
  cbn zeta. unfold drawTemplateOnTile.
  destruct (templatesShouldBeDrawn m) eqn:E; cbn [negb]; [|cbn; rewrite ?E; repeat split; reflexivity].
  match goal with |- context [if (0 <? ?n)%nat then _ else _] => destruct (0 <? n)%nat end;
    destruct (createImageBitmap b); cbn; repeat split; rewrite ?E; reflexivity.
Qed.

Lemma Permutation_filter_bool {A : Type} (f : A -> bool) (l l' : list A) :
  Permutation l l' -> Permutation (filter f l) (filter f l').
Proof.
  induction 1; cbn.
  - constructor.
  - destruct (f x); [constructor|]; assumption.
  - destruct (f x), (f y); try constructor; reflexivity.
  - etransitivity; eassumption.
Qed.

Lemma fold_sum_shift (l : list template) : forall a,
  fold_left (fun s t => s + pixelCount t) l a = a + fold_left (fun s t => s + pixelCount t) l 0.
Proof.
  induction l as [|u r IH]; intros a; cbn [fold_left]; [lia|].
  rewrite (IH (a + pixelCount u)), (IH (0 + pixelCount u)). lia.
Qed.

Lemma fold_sum_perm (l l' : list template) :
  Permutation l l' ->
  fold_left (fun s t => s + pixelCount t) l 0 = fold_left (fun s t => s + pixelCount t) l' 0.
Proof.
  induction 1; cbn [fold_left].
  - reflexivity.
  - rewrite (fold_sum_shift l), (fold_sum_shift l'). lia.
  - rewrite (fold_sum_shift l (0 + pixelCount x + pixelCount y)),
            (fold_sum_shift l (0 + pixelCount y + pixelCount x)). lia.
  - congruence.
Qed.

Lemma templatesToDraw_length (pre : string) (l : list template) :
  List.length (templatesToDraw pre l) =
  List.length (filter (fun t => negb (List.length (matching_tiles pre t) =? 0)%nat && enabled t) l).
Proof.
  unfold templatesToDraw. induction l as [|u r IH]; [reflexivity|].
  cbn [filter]. destruct (enabled u); rewrite ?andb_true_r, ?andb_false_r; [|exact IH].
  change (filter_map (first_match pre) (u :: filter enabled r)) with
    (match first_match pre u with
     | Some y => y :: filter_map (first_match pre) (filter enabled r)
     | None => filter_map (first_match pre) (filter enabled r) end).
  unfold first_match at 1.
  destruct (matching_tiles pre u) as [|[k bmp] rest]; cbn [List.length Nat.eqb negb].
  - exact IH.
  - f_equal. exact IH.
Qed.

(** X14: [drawTemplateOnTile] only reorders the runtime array (the result is
    a permutation of it) and never changes the document, the persisted copy
    or the draw flag; with the flag off it returns the tile unchanged and
    changes nothing. *)
Theorem drawTemplateOnTile_frame (B : browser) (m : manager) (b : blob) (tx ty : Z) :
  let m' := fst (drawTemplateOnTile B m b tx ty) in
  Permutation (templatesArray m') (templatesArray m) /\
  templatesJSON m' = templatesJSON m /\ persisted m' = persisted m /\
  templatesShouldBeDrawn m' = templatesShouldBeDrawn m /\
  (templatesShouldBeDrawn m = false -> drawTemplateOnTile B m b tx ty = (m, Ok b)).
Proof.
  destruct (drawTemplateOnTile_fields B m b tx ty) as (Ha & Hj & Hp & Hs).
  cbn zeta. rewrite Ha, Hj, Hp, Hs. split; [|split; [|split; [|split]]]; try reflexivity.
  - destruct (templatesShouldBeDrawn m); [apply sort_by_sortID_perm|reflexivity].
  - intros H. unfold drawTemplateOnTile. rewrite H. reflexivity.
Qed.

Lemma drawTemplateOnTile_frame_witness :
  templatesShouldBeDrawn (setTemplatesShouldBeDrawn m_two false) = false /\
  drawTemplateOnTile std_browser (setTemplatesShouldBeDrawn m_two false) tile1000 3 4
    = (setTemplatesShouldBeDrawn m_two false, Ok tile1000).
Proof.
  split; [reflexivity|].
  exact (proj2 (proj2 (proj2 (proj2
    (drawTemplateOnTile_frame std_browser (setTemplatesShouldBeDrawn m_two false) tile1000 3 4))))
    eq_refl).
Defined.

(** X15: A second [drawTemplateOnTile] call leaves the runtime array in the
    order the first call left it: the in-place sort is idempotent. *)
Theorem drawTemplateOnTile_sort_idempotent (B : browser) (m : manager)
    (b b' : blob) (tx ty tx' ty' : Z) :
  let m1 := fst (drawTemplateOnTile B m b tx ty) in
  templatesArray (fst (drawTemplateOnTile B m1 b' tx' ty')) = templatesArray m1.
Proof.
  cbn zeta.
  destruct (drawTemplateOnTile_fields B m b tx ty) as (Ha & _ & _ & Hs).
  destruct (drawTemplateOnTile_fields B (fst (drawTemplateOnTile B m b tx ty)) b' tx' ty')
    as (Ha2 & _).
  rewrite Ha2, Hs, Ha.
  destruct (templatesShouldBeDrawn m); [|reflexivity].
  apply sort_by_sortID_id, sort_by_sortID_sorted.
Qed.

(** X16: With drawing on, [drawTemplateOnTile] posts one status message: the
    number of enabled templates with a fragment on the tile and the sum of
    their pixel counts, or 'Displaying 0 templates.' when there is none;
    neither depends on the order of the array. *)
Theorem drawTemplateOnTile_status (B : browser) (m : manager) (b : blob) (tx ty : Z) :
  templatesShouldBeDrawn m = true ->
  let pre := tile_prefix tx ty in
  let n := List.length (filter (fun t => negb (List.length (matching_tiles pre t) =? 0)%nat
                                         && enabled t) (templatesArray m)) in
  status (fst (drawTemplateOnTile B m b tx ty)) =
    status m ++ [if (0 <? n)%nat then MsgDisplaying n (totalPixels pre (templatesArray m))
                 else MsgDisplayingNone 0].
Proof.
  intros Hd pre n. unfold drawTemplateOnTile. rewrite Hd. cbn [negb]. fold pre.
  rewrite templatesToDraw_length.
  assert (Hn : List.length (filter (fun t => negb (List.length (matching_tiles pre t) =? 0)%nat
                                             && enabled t) (sort_by_sortID (templatesArray m))) = n)
    by (apply Permutation_length, Permutation_filter_bool, sort_by_sortID_perm).
  assert (Ht : totalPixels pre (sort_by_sortID (templatesArray m)) = totalPixels pre (templatesArray m))
    by (apply fold_sum_perm, Permutation_filter_bool, sort_by_sortID_perm).
  rewrite Hn, Ht.
  destruct (0 <? n)%nat eqn:E.
  - destruct (createImageBitmap b); reflexivity.
  - apply Nat.ltb_ge in E. replace n with 0%nat by lia.
    destruct (createImageBitmap b); reflexivity.
Qed.

Lemma drawTemplateOnTile_status_witness :
  templatesShouldBeDrawn m_two = true /\
  status (fst (drawTemplateOnTile std_browser m_two tile1000 0 0)) = [MsgDisplaying 2 2].
Proof.
  split; [reflexivity|].
  rewrite (drawTemplateOnTile_status std_browser m_two tile1000 0 0 eq_refl).
  vm_compute. reflexivity.
Defined.

Lemma remove_ws_replace_first_space (s : string) :
  remove_ws (replace_first_space s) = remove_ws s.
Proof.
  induction s as [|c r IH]; cbn [replace_first_space remove_ws]; [reflexivity|].
  destruct (Ascii.eqb c " ") eqn:E.
  - apply Ascii.eqb_eq in E. subst c. reflexivity.
  - cbn [remove_ws]. rewrite IH. reflexivity.
Qed.

Lemma remove_ws_no_ws (s : string) : has_ws s = false -> remove_ws s = s.
Proof.
  unfold has_ws. induction s as [|c r IH]; cbn [remove_ws list_ascii_of_string existsb];
    [reflexivity|].
  intros H. apply orb_false_iff in H as [Hc Hr]. rewrite Hc, IH by exact Hr. reflexivity.
Qed.

Lemma remove_ws_length (s : string) :
  (String.length (remove_ws s) <= String.length s)%nat /\
  (has_ws s = true -> (String.length (remove_ws s) < String.length s)%nat).
Proof.
  unfold has_ws. induction s as [|c r [IH1 IH2]]; cbn [remove_ws list_ascii_of_string existsb];
    [split; [lia|discriminate]|].
  destruct (is_ws c); cbn [String.length orb]; split; try lia; intros H; specialize (IH2 H); lia.
Qed.

Lemma remove_ws_ws_neq (s : string) : has_ws s = true -> remove_ws s <> s.
Proof.
  intros H E. pose proof (proj2 (remove_ws_length s) H) as L. rewrite E in L. lia.
Qed.

(** X17: A saved document whose whoami was written by [createJSON] is
    imported by a fresh manager of the same name when the name has no white
    space left once its first space is removed: the import resolves and
    adopts the document with its keys. *)
Theorem createJSON_reload_accepted (B : browser) (m : manager) (d : doc)
    (ts : list (string * entry)) :
  templatesJSON m = None -> whoami d = whoami (createJSON m) -> templates d = Some ts ->
  has_ws (replace_first_space (name m)) = false ->
  snd (importJSON B m (Some d)) = Ok tt /\
  exists d', templatesJSON (fst (importJSON B m (Some d))) = Some d' /\
    option_map keys (templates d') = Some (keys ts).
Proof.
  intros Hj Hw Hts Hnw.
  assert (Hacc : import_accepted m d).
  { unfold import_accepted, whoami_falsy. rewrite Hw. cbn [whoami createJSON].
    destruct (String.eqb (replace_first_space (name m)) "") eqn:E; [left; reflexivity|].
    right. eexists. split; [reflexivity|]. cbn. right; right; right; left.
    rewrite <- remove_ws_replace_first_space. apply remove_ws_no_ws, Hnw. }
  destruct (importJSON_accepted B m d ts Hts Hacc) as (d' & Hd' & ->).
  rewrite Hj, (parseBlueMarble_some B m d' ts Hd').
  cbn [fst snd templatesJSON with_json with_templates templates option_map].
  split; [reflexivity|]. eexists. split; [reflexivity|].
  cbn [templates with_templates option_map]. rewrite parse_loop_keys. reflexivity.
Qed.

Lemma createJSON_reload_accepted_witness :
  has_ws (replace_first_space (name m0)) = false /\
  snd (importJSON std_browser m0 (Some (with_templates (createJSON m0) [("0 !"%string, entry1)]))) = Ok tt.
Proof.
  assert (H : has_ws (replace_first_space (name m0)) = false) by (vm_compute; reflexivity).
  split; [exact H|].
  exact (proj1 (createJSON_reload_accepted std_browser m0 (with_templates (createJSON m0) [("0 !"%string, entry1)])
                  _ eq_refl eq_refl eq_refl H)).
Defined.

(** X18: When the script name still has white space after [createJSON]
    removes its first space (a name with two spaces), and is not one of the
    legacy names, a document written by [createJSON] is ignored by
    [importJSON]: nothing is imported. *)
Theorem createJSON_reload_dropped (B : browser) (m : manager) (d : doc) :
  whoami d = whoami (createJSON m) ->
  has_ws (replace_first_space (name m)) = true ->
  ~ In (replace_first_space (name m)) ["BlueMarble"; "BluePeanits"; "BluePeanuts"]%string ->
  importJSON B m (Some d) = (m, Ok tt).
Proof.
  intros Hw Hws Hleg. unfold importJSON.
  set (w := replace_first_space (name m)) in *.
  assert (Hf : whoami_falsy d = false).
  { unfold whoami_falsy. rewrite Hw. cbn [whoami createJSON]. fold w.
    apply String.eqb_neq. intros E. rewrite E in Hws. discriminate. }
  rewrite Hf. cbn [andb]. rewrite Hw. cbn [whoami createJSON]. fold w.
  replace (existsb (String.eqb w) (accepted_whoami m)) with false; [reflexivity|].
  symmetry. apply Bool.not_true_iff_false. intros H.
  apply existsb_exists in H as (x & Hx & Heq). apply String.eqb_eq in Heq. subst x.
  unfold accepted_whoami in Hx. destruct Hx as [H|[H|[H|[H|[]]]]];
    try (apply Hleg; rewrite <- H; cbn; tauto).
  apply (remove_ws_ws_neq w Hws). unfold w at 1. rewrite remove_ws_replace_first_space.
  exact H.
Qed.

Lemma createJSON_reload_dropped_witness :
  has_ws (replace_first_space (name m_spaces)) = true /\
  importJSON std_browser m_spaces (Some (with_templates (createJSON m_spaces) [("0 !"%string, entry1)]))
    = (m_spaces, Ok tt).
Proof.
  assert (H : has_ws (replace_first_space (name m_spaces)) = true) by (vm_compute; reflexivity).
  split; [exact H|].
  apply (createJSON_reload_dropped std_browser m_spaces _ eq_refl H).
  cbn. intuition discriminate.
Defined.

Lemma parse_loop_stop (B : browser) (pre : list (string * entry)) (k : string) (v : entry)
    (rest : list (string * entry)) : forall arr,
  Forall (fun kv => decode_tiles (e_tiles (snd kv)) [] <> None) pre ->
  decode_tiles (e_tiles v) [] = None ->
  List.length (fst (parse_loop B arr (pre ++ (k, v) :: rest))) =
    (List.length arr + List.length pre)%nat.
Proof.
  induction pre as [|[k0 v0] r IH]; intros arr Hd Hv; cbn [app parse_loop].
  - unfold parse_template at 1. rewrite Hv. cbn. lia.
  - inversion Hd as [|kv l Hkv Hr]; subst.
    destruct (parse_template B (Z.of_nat (List.length arr)) k0 v0) as [[t v']|] eqn:P;
      [|exfalso; exact (parse_template_some B _ k0 v0 Hkv P)].
    specialize (IH (arr ++ [t]) Hr Hv).
    destruct (parse_loop B (arr ++ [t]) (r ++ (k, v) :: rest)) eqn:P'. cbn in IH |- *.
    rewrite IH, length_app. cbn. lia.
Qed.

(** X19: When an accepted import resolves although the fragment of some
    entry does not decode, only the templates of the entries before it are
    appended: the parse stops there. *)
Theorem importJSON_stops_at_undecodable (B : browser) (m : manager) (d : doc)
    (pre rest : list (string * entry)) (k : string) (v : entry) :
  templates d = Some (pre ++ (k, v) :: rest) -> import_accepted m d ->
  Forall (fun kv => decode_tiles (e_tiles (snd kv)) [] <> None) pre ->
  decode_tiles (e_tiles v) [] = None ->
  snd (importJSON B m (Some d)) = Ok tt ->
  List.length (templatesArray (fst (importJSON B m (Some d)))) =
    (List.length (templatesArray m) + List.length pre)%nat.
Proof.
  intros Hts Hacc Hdec Hv.
  destruct (importJSON_accepted B m d _ Hts Hacc) as (d' & Hd' & ->).
  rewrite (parseBlueMarble_some B m d' _ Hd').
  assert (L : (List.length (pre ++ (k, v) :: rest) =? 0)%nat = false)
    by (apply Nat.eqb_neq; rewrite length_app; cbn; lia).
  destruct (templatesJSON m) as [cur|]; [destruct (templates cur) as [cts|]; [|rewrite L]|];
    cbn [fst snd templatesArray with_json with_array]; intros H; try discriminate;
    apply parse_loop_stop; assumption.
Qed.

Lemma importJSON_stops_at_undecodable_witness :
  snd (importJSON std_browser m0 (Some doc_bad)) = Ok tt /\
  List.length (templatesArray (fst (importJSON std_browser m0 (Some doc_bad)))) = 1%nat.
Proof.
  assert (H : snd (importJSON std_browser m0 (Some doc_bad)) = Ok tt) by (vm_compute; reflexivity).
  split; [exact H|].
  refine (importJSON_stops_at_undecodable std_browser m0 doc_bad [("0 $Z"%string, entry1)] []
            "1 $Z" entry_bad eq_refl _ _ _ H).
  - right. exists "BlueMarble"%string. split; [reflexivity|]. cbn. tauto.
  - constructor; [vm_compute; discriminate|constructor].
  - vm_compute. reflexivity.
Defined.

(** X20: After [#parseBlueMarble] handles an entry, the entry written back
    holds as pixelCount a number equal to the runtime template's pixelCount,
    and its other members are unchanged. *)
Theorem parse_template_writes_back_count (B : browser) (len : Z) (k : string) (v : entry)
    (t : template) (v' : entry) :
  parse_template B len k v = Some (t, v') ->
  e_pixelCount v' = PCNum (pixelCount t) /\
  e_name v' = e_name v /\ e_coords v' = e_coords v /\ e_enabled v' = e_enabled v /\
  e_tiles v' = e_tiles v.
Proof.
  unfold parse_template. destruct (decode_tiles (e_tiles v) []) as [tt0|]; [|discriminate].
  unfold resolve_pixelCount.
  destruct (computePixelCountFromTiles B tt0) as [c|] eqn:C.
  - destruct (e_pixelCount v) as [|n| |] eqn:P; [|destruct (0 <=? n)|..];
      intros H; inversion H; subst; cbn; rewrite ?P; repeat split; reflexivity.
  - destruct (e_pixelCount v) as [|n| |] eqn:P; [|destruct (0 <=? n)|..];
      intros H; inversion H; subst; cbn; rewrite ?P; repeat split; reflexivity.
Qed.

Lemma parse_template_writes_back_count_witness :
  exists t v', parse_template no_canvas_browser 0 "0 $Z" entry_bare = Some (t, v') /\
               e_pixelCount v' = PCNum (pixelCount t).
Proof.
  destruct (parse_template no_canvas_browser 0 "0 $Z" entry_bare) as [[t v']|] eqn:P;
    [|vm_compute in P; discriminate].
  exists t, v'. split; [reflexivity|].
  exact (proj1 (parse_template_writes_back_count no_canvas_browser 0 "0 $Z" entry_bare t v' P)).
Defined.

(** X21: [#parseBlueMarble] reads a key [`${sortID} ${authorID}`] (authorID
    non-empty, without a space) back as that sortID and authorID, except
    that sortID 0 is replaced by the length of the runtime array; enabled
    defaults to true. *)
Theorem parse_template_reads_key (B : browser) (len s : Z) (a : string) (v : entry)
    (t : template) (v' : entry) :
  has_char " " a = false -> a <> EmptyString ->
  parse_template B len (template_key s a) v = Some (t, v') ->
  sortID t = (if s =? 0 then len else s) /\ authorID t = a /\
  enabled t = match e_enabled v with Some b => b | None => true end.
Proof.
  intros Ha Hne. unfold parse_template, template_key.
  replace ((" " ++ a)%string) with (String " " a) by reflexivity.
  rewrite split_on_app by (apply has_char_Forall, Z_to_string_no_space).
  rewrite split_on_none by (apply has_char_Forall, Ha).
  cbn [nth_error]. rewrite Number_Z_to_string.
  replace (String.eqb a "") with false by (symmetry; apply String.eqb_neq, Hne).
  destruct (decode_tiles (e_tiles v) []); [|discriminate].
  destruct (resolve_pixelCount B l v). intros H. inversion H; subst. cbn.
  repeat split; reflexivity.
Qed.

Lemma parse_template_reads_key_witness :
  exists t v', parse_template std_browser 5 (template_key 0 "$Z") entry1 = Some (t, v') /\
               sortID t = 5 /\ authorID t = "$Z"%string.
Proof.
  destruct (parse_template std_browser 5 (template_key 0 "$Z") entry1) as [[t v']|] eqn:P;
    [|vm_compute in P; discriminate].
  exists t, v'. split; [reflexivity|].
  destruct (parse_template_reads_key std_browser 5 0 "$Z" entry1 t v' eq_refl ltac:(discriminate) P)
    as (H1 & H2 & _).
  split; assumption.
Defined.

(** X22: With four finite coordinates and a templates map,
    [updateTemplateCoordinates] keeps every other entry and the key order,
    sets the coordinates of the first runtime template matching the key and
    of no other, and persists the document. *)
Theorem updateTemplateCoordinates_effect (m : manager) (key : string) (cs : list num)
    (ts : list (string * entry)) :
  coords_ok (Some cs) = true ->
  json_templates (ensureJSON m) = Some ts ->
  let m' := fst (updateTemplateCoordinates m key (Some cs)) in
  (exists ts',
     json_templates m' = Some ts' /\
     (forall k, k <> key -> get ts' k = get ts k) /\
     keys ts' = keys ts) /\
  ((Forall (fun u => key_matches key u = false) (templatesArray m) /\
    templatesArray m' = templatesArray m) \/
   (exists l1 t l2, templatesArray m = l1 ++ t :: l2 /\
      Forall (fun u => key_matches key u = false) l1 /\ key_matches key t = true /\
      templatesArray m' = l1 ++ set_coords cs t :: l2)) /\
  persisted m' = templatesJSON m'.
Proof.
  intros Hok Hts m'. unfold m', updateTemplateCoordinates.
  cbn [coords_ok] in Hok. apply andb_true_iff in Hok as [H4 Hf].
  rewrite H4, Hf. cbn [negb].
  unfold json_templates in Hts.
  destruct (templatesJSON (ensureJSON m)) as [d|]; [|discriminate]. rewrite Hts.
  cbn [fst snd with_json with_array storeTemplates templatesArray templatesJSON persisted
       json_templates with_templates templates].
  rewrite ensureJSON_array.
  split; [|split; [|reflexivity]].
  - destruct (get ts key) as [e|] eqn:G.
    + eexists. split; [reflexivity|]. split.
      * intros k Hk. apply get_set_neq. congruence.
      * eapply keys_set_present. exact G.
    + eexists. split; [reflexivity|]. split; reflexivity.
  - exact (update_first_cases (key_matches key) (set_coords cs) (templatesArray m)).
Qed.

Lemma updateTemplateCoordinates_effect_witness :
  json_templates (ensureJSON m_one) = Some [("0 !"%string, entry1)] /\
  persisted (fst (updateTemplateCoordinates m_one "0 !" (Some zero4)))
    = templatesJSON (fst (updateTemplateCoordinates m_one "0 !" (Some zero4))).
Proof.
  assert (H : json_templates (ensureJSON m_one) = Some [("0 !"%string, entry1)]) by (vm_compute; reflexivity).
  split; [exact H|].
  exact (proj2 (proj2 (updateTemplateCoordinates_effect m_one "0 !" zero4 _ eq_refl H))).
Defined.
